(** * blackroad-widget-factory: widget validation, projection and export

    A shallow embedding of [src/main_module.py]: the data classes
    [Position], [Widget] and [WidgetLayout], the schema tables, and the
    functions [serialize_widget], [deserialize_widget],
    [generate_react_props], [validate_config] and [export_layout],
    followed by the properties proved about them.

    Conventions of the embedding.
    - A Python [int] is a [Z]; a Python [float] is a [spec_float]; a
      Python [str] is a [string] read as a sequence of code points
      below 256.
    - A JSON-compatible Python object is a [value]; a [dict] with string
      keys is an association list kept in insertion order, as Python
      dictionaries are.
    - A call that can raise returns a [result]. *)

From Stdlib Require Import ZArith List Bool Ascii String Lia.
From Stdlib Require Import Floats.SpecFloat.
From Stdlib Require Import Numbers.DecimalString.
Import ListNotations.

Set Warnings "-register-all".

Open Scope string_scope.
Open Scope Z_scope.

(* ------------------------------------------------------------------ *)
(** ** Python strings *)
(* ------------------------------------------------------------------ *)

Module Str.

(** The double quote character, and the line feed. *)
Definition dq : string := String "034"%char "".
Definition nl : string := String "010"%char "".

(** [str(n)] for an [int]. *)
Definition of_int (n : Z) : string := NilZero.string_of_int (Z.to_int n).

(** [sep.join(parts)]. *)
Fixpoint join (sep : string) (parts : list string) : string :=
  match parts with
  | [] => ""
  | [p] => p
  | p :: rest => p ++ sep ++ join sep rest
  end.

(** [s[:n]]. *)
Fixpoint take (n : nat) (s : string) : string :=
  match n, s with
  | S n', String c s' => String c (take n' s')
  | _, _ => ""
  end.

(** [s.startswith(p)]. *)
Fixpoint startswith (p s : string) : bool :=
  match p, s with
  | EmptyString, _ => true
  | String a p', String b s' => Ascii.eqb a b && startswith p' s'
  | String _ _, EmptyString => false
  end.

(** [sub in s]. *)
Fixpoint contains (sub s : string) : bool :=
  startswith sub s ||
  match s with
  | EmptyString => false
  | String _ s' => contains sub s'
  end.

(** [s.replace(old, new)] for one-character [old] and [new]. *)
Fixpoint replace (old new : ascii) (s : string) : string :=
  match s with
  | EmptyString => EmptyString
  | String c s' =>
      String (if Ascii.eqb c old then new else c) (replace old new s')
  end.

(** [c.lower()] on a code point below 256: the letters [A-Z] and the
    Latin-1 capitals U+00C0..U+00DE other than the multiplication sign
    U+00D7 move up by 32; every other code point is left alone. *)
Definition lower_char (c : ascii) : ascii :=
  let n := nat_of_ascii c in
  if ((65 <=? n) && (n <=? 90))%nat then ascii_of_nat (n + 32)
  else if ((192 <=? n) && (n <=? 222) && negb (n =? 215))%nat
       then ascii_of_nat (n + 32)
  else c.

(** [s.lower()]. *)
Fixpoint lower (s : string) : string :=
  match s with
  | EmptyString => EmptyString
  | String c s' => String (lower_char c) (lower s')
  end.

(** [bool(s)]: a string is truthy when it is not empty. *)
Definition truthy (s : string) : bool :=
  match s with
  | EmptyString => false
  | String _ _ => true
  end.

End Str.

(* ------------------------------------------------------------------ *)
(** ** Python values and dictionaries *)
(* ------------------------------------------------------------------ *)

(** The JSON-compatible objects a widget's [config] holds. *)
Inductive value : Type :=
| VNone
| VBool (b : bool)
| VInt (n : Z)
| VFloat (f : spec_float)
| VStr (s : string)
| VList (l : list value)
| VDict (d : list (string * value)).

(** A [dict] with string keys, in insertion order. *)
Definition dict (A : Type) : Type := list (string * A).

Module Dict.
Section Ops.
Context {A : Type}.

(** [d.get(k)], [None] when the key is missing. *)
Fixpoint get (d : dict A) (k : string) : option A :=
  match d with
  | [] => None
  | (k', v) :: d' => if String.eqb k' k then Some v else get d' k
  end.

(** [d.get(k, default)]. *)
Definition get_default (d : dict A) (k : string) (default : A) : A :=
  match get d k with
  | Some v => v
  | None => default
  end.

(** [k in d]. *)
Definition mem (d : dict A) (k : string) : bool :=
  match get d k with
  | Some _ => true
  | None => false
  end.

(** [d[k] = v]: an existing key keeps its place, a new key goes last. *)
Fixpoint set (d : dict A) (k : string) (v : A) : dict A :=
  match d with
  | [] => [(k, v)]
  | (k', v') :: d' =>
      if String.eqb k' k then (k', v) :: d' else (k', v') :: set d' k v
  end.

(** [{**d, **items}]: the items are stored one by one. *)
Definition update (d : dict A) (items : list (string * A)) : dict A :=
  fold_left (fun acc kv => set acc (fst kv) (snd kv)) items d.

(** [d.keys()]. *)
Definition keys (d : dict A) : list string := map fst d.

(** The invariant of a Python dictionary: no key occurs twice. *)
Definition wf (d : dict A) : Prop := NoDup (keys d).
End Ops.
End Dict.

(** The classes of the objects of [value]. *)
Inductive pytype : Type :=
| TNoneType | TBool | TInt | TFloat | TStr | TList | TDict.

Definition pytype_eqb (a b : pytype) : bool :=
  match a, b with
  | TNoneType, TNoneType | TBool, TBool | TInt, TInt | TFloat, TFloat
  | TStr, TStr | TList, TList | TDict, TDict => true
  | _, _ => false
  end.

(** [type(v)]. *)
Definition type_of (v : value) : pytype :=
  match v with
  | VNone => TNoneType
  | VBool _ => TBool
  | VInt _ => TInt
  | VFloat _ => TFloat
  | VStr _ => TStr
  | VList _ => TList
  | VDict _ => TDict
  end.

(** [t.__name__]. *)
Definition type_name (t : pytype) : string :=
  match t with
  | TNoneType => "NoneType"
  | TBool => "bool"
  | TInt => "int"
  | TFloat => "float"
  | TStr => "str"
  | TList => "list"
  | TDict => "dict"
  end.

(** [repr(t)], as an f-string prints a class inside a tuple. *)
Definition type_repr (t : pytype) : string :=
  "<class '" ++ type_name t ++ "'>".

(** [issubclass(a, b)]: every class is its own subclass, and [bool] is a
    subclass of [int]. *)
Definition issubclass (a b : pytype) : bool :=
  pytype_eqb a b ||
  match a, b with
  | TBool, TInt => true
  | _, _ => false
  end.

(** What a schema expects of a field: one class, or a tuple of classes. *)
Inductive expected : Type :=
| One (t : pytype)
| Tuple (ts : list pytype).

(** [isinstance(v, t)] for a class [t]. *)
Definition isinstance1 (v : value) (t : pytype) : bool :=
  issubclass (type_of v) t.

(** [isinstance(v, e)] for a class or a tuple of classes. *)
Definition isinstance (v : value) (e : expected) : bool :=
  match e with
  | One t => isinstance1 v t
  | Tuple ts => existsb (isinstance1 v) ts
  end.

(** [str(ts)] for a tuple of classes. *)
Definition tuple_repr (ts : list pytype) : string :=
  match ts with
  | [t] => "(" ++ type_repr t ++ ",)"
  | _ => "(" ++ Str.join ", " (map type_repr ts) ++ ")"
  end.

(* ------------------------------------------------------------------ *)
(** ** Exceptions *)
(* ------------------------------------------------------------------ *)

(** The exceptions of the modelled calls.  [Unannotated f] is not a
    Python exception: the data classes do not check their annotations,
    so [deserialize_widget] can build an object whose field [f] holds a
    value outside its declared class; the records below cannot hold such
    an object, and the embedding stops there. *)
Inductive exn : Type :=
| KeyError (key : string)
| AttributeError (attr : string)
| ValueError (msg : string)
| JSONDecodeError
| Unannotated (field : string).

Inductive result (A : Type) : Type :=
| Ok (a : A)
| Raise (e : exn).
Arguments Ok {A} a.
Arguments Raise {A} e.

Definition bind {A B : Type} (m : result A) (k : A -> result B) : result B :=
  match m with
  | Ok a => k a
  | Raise e => Raise e
  end.

Notation "x <- m ;; k" := (bind m (fun x => k))
  (at level 61, m at next level, right associativity).

(* ------------------------------------------------------------------ *)
(** ** Data structures *)
(* ------------------------------------------------------------------ *)

Record Position : Type := mkPosition {
  x : Z;
  y : Z;
  width : Z;    (* grid columns (1-12) *)
  height : Z    (* grid rows *)
}.

Record Widget : Type := mkWidget {
  widget_type : string;
  config : dict value;
  position : Position;
  widget_id : string;
  label : string;
  visible : bool;
  created_at : string;
  db_id : option Z
}.

Record WidgetLayout : Type := mkWidgetLayout {
  name : string;
  widgets : list Widget;
  columns : Z;
  row_height : Z;
  layout_id : option Z;
  layout_created_at : string    (* field created_at *)
}.

(** [dataclasses.asdict(p)] for a [Position]. *)
Definition asdict (p : Position) : dict value :=
  [("x", VInt (x p)); ("y", VInt (y p));
   ("width", VInt (width p)); ("height", VInt (height p))].

(* ------------------------------------------------------------------ *)
(** ** Static tables *)
(* ------------------------------------------------------------------ *)

(** Supported widget types. *)
Definition WIDGET_TYPES : list string :=
  ["button"; "input"; "text"; "image"; "chart"; "table";
   "card"; "modal"; "dropdown"; "checkbox"; "slider";
   "progress"; "badge"; "avatar"; "tooltip"; "tabs";
   "accordion"; "navbar"; "sidebar"; "form"].

(** [t in WIDGET_TYPES]. *)
Definition is_widget_type (t : string) : bool :=
  existsb (String.eqb t) WIDGET_TYPES.

Definition number : expected := Tuple [TInt; TFloat].

(** Config schemas per widget type. *)
Definition _CONFIG_SCHEMAS : dict (dict expected) :=
  [("button",   [("label", One TStr); ("variant", One TStr); ("disabled", One TBool)]);
   ("input",    [("placeholder", One TStr); ("type", One TStr); ("required", One TBool);
                 ("maxLength", One TInt)]);
   ("text",     [("content", One TStr); ("size", One TStr); ("weight", One TStr);
                 ("color", One TStr)]);
   ("image",    [("src", One TStr); ("alt", One TStr); ("width", One TInt);
                 ("height", One TInt)]);
   ("chart",    [("chartType", One TStr); ("data", One TList); ("title", One TStr);
                 ("showLegend", One TBool)]);
   ("table",    [("columns", One TList); ("rows", One TList); ("sortable", One TBool);
                 ("paginate", One TBool)]);
   ("card",     [("title", One TStr); ("body", One TStr); ("footer", One TStr);
                 ("elevation", One TInt)]);
   ("modal",    [("title", One TStr); ("content", One TStr); ("closable", One TBool)]);
   ("dropdown", [("options", One TList); ("placeholder", One TStr);
                 ("multiple", One TBool)]);
   ("checkbox", [("label", One TStr); ("checked", One TBool);
                 ("indeterminate", One TBool)]);
   ("slider",   [("min", number); ("max", number); ("step", number); ("value", number)]);
   ("progress", [("value", number); ("max", number); ("label", One TStr);
                 ("color", One TStr)]);
   ("badge",    [("text", One TStr); ("color", One TStr); ("size", One TStr)]);
   ("avatar",   [("src", One TStr); ("name", One TStr); ("size", One TStr)]);
   ("tooltip",  [("content", One TStr); ("placement", One TStr)]);
   ("tabs",     [("items", One TList); ("activeIndex", One TInt)])].

(** React prop type mappings. *)
Definition _PROP_TYPES (t : pytype) : option string :=
  match t with
  | TStr => Some "PropTypes.string"
  | TInt => Some "PropTypes.number"
  | TFloat => Some "PropTypes.number"
  | TBool => Some "PropTypes.bool"
  | TList => Some "PropTypes.array"
  | TDict => Some "PropTypes.object"
  | TNoneType => None
  end.

(** The component names of [generate_react_props]. *)
Definition type_map : dict string :=
  [("button", "Button"); ("input", "Input"); ("text", "Typography");
   ("image", "Image"); ("chart", "Chart"); ("table", "DataTable");
   ("card", "Card"); ("modal", "Modal"); ("dropdown", "Select");
   ("checkbox", "Checkbox"); ("slider", "Slider"); ("progress", "ProgressBar");
   ("badge", "Badge"); ("avatar", "Avatar"); ("tooltip", "Tooltip");
   ("tabs", "Tabs")].

(* ------------------------------------------------------------------ *)
(** ** Serialization *)
(* ------------------------------------------------------------------ *)

(** Serialize Widget to plain dict (JSON-safe). *)
Definition serialize_widget (widget : Widget) : dict value :=
  [("widget_id", VStr (widget_id widget));
   ("widget_type", VStr (widget_type widget));
   ("label", VStr (label widget));
   ("config", VDict (config widget));
   ("position", VDict (asdict (position widget)));
   ("visible", VBool (visible widget));
   ("created_at", VStr (created_at widget))].

(** What the two impure calls of [deserialize_widget] return during one
    call: [str(uuid.uuid4())] and [datetime.utcnow().isoformat()]. *)
Record Env : Type := mkEnv {
  uuid4 : string;
  utcnow : string
}.

(** The receiver of a [.get] call has to be a dictionary. *)
Definition get_method (v : value) : result (dict value) :=
  match v with
  | VDict d => Ok d
  | _ => Raise (AttributeError "get")
  end.

(** [d[k]]. *)
Definition subscript (d : dict value) (k : string) : result value :=
  match Dict.get d k with
  | Some v => Ok v
  | None => Raise (KeyError k)
  end.

(** The annotations of the data classes: [str], [int], [bool] and
    [Dict[str, Any]]. *)
Definition as_str (field : string) (v : value) : result string :=
  match v with VStr s => Ok s | _ => Raise (Unannotated field) end.
Definition as_int (field : string) (v : value) : result Z :=
  match v with VInt n => Ok n | _ => Raise (Unannotated field) end.
Definition as_bool (field : string) (v : value) : result bool :=
  match v with VBool b => Ok b | _ => Raise (Unannotated field) end.
Definition as_dict (field : string) (v : value) : result (dict value) :=
  match v with VDict d => Ok d | _ => Raise (Unannotated field) end.

Section Deserialize.

(** [json.loads]: the parsed object, or a [JSONDecodeError]. *)
Variable json_loads : string -> result value.

(** Deserialize dict/JSON string back to Widget.  The Python exceptions
    come first and in the order of the source; the annotations of the
    constructed object are looked at last. *)
Definition deserialize_widget (env : Env) (data : value) : result Widget :=
  data <- match data with
          | VStr s => json_loads s
          | _ => Ok data
          end ;;
  data <- get_method data ;;
  let pos_data := Dict.get_default data "position" (VDict []) in
  let a_widget_id := Dict.get_default data "widget_id" (VStr (uuid4 env)) in
  a_widget_type <- subscript data "widget_type" ;;
  let a_label := Dict.get_default data "label" (VStr "") in
  let a_config := Dict.get_default data "config" (VDict []) in
  pos_data <- get_method pos_data ;;
  let a_x := Dict.get_default pos_data "x" (VInt 0) in
  let a_y := Dict.get_default pos_data "y" (VInt 0) in
  let a_width := Dict.get_default pos_data "width" (VInt 4) in
  let a_height := Dict.get_default pos_data "height" (VInt 2) in
  let a_visible := Dict.get_default data "visible" (VBool true) in
  let a_created_at := Dict.get_default data "created_at" (VStr (utcnow env)) in
  f_widget_id <- as_str "widget_id" a_widget_id ;;
  f_widget_type <- as_str "widget_type" a_widget_type ;;
  f_label <- as_str "label" a_label ;;
  f_config <- as_dict "config" a_config ;;
  f_x <- as_int "x" a_x ;;
  f_y <- as_int "y" a_y ;;
  f_width <- as_int "width" a_width ;;
  f_height <- as_int "height" a_height ;;
  f_visible <- as_bool "visible" a_visible ;;
  f_created_at <- as_str "created_at" a_created_at ;;
  Ok {| widget_id := f_widget_id;
        widget_type := f_widget_type;
        label := f_label;
        config := f_config;
        position := {| x := f_x; y := f_y;
                       width := f_width; height := f_height |};
        visible := f_visible;
        created_at := f_created_at;
        db_id := None |}.

End Deserialize.

(* ------------------------------------------------------------------ *)
(** ** React prop generation *)
(* ------------------------------------------------------------------ *)

(** The dictionary [generate_react_props] returns, one field per key. *)
Record ReactProps : Type := mkReactProps {
  componentName : string;
  props : dict value;
  propTypes : dict string;
  defaultProps : dict value;
  position_dict : dict value     (* key "position" *)
}.

(** [_PROP_TYPES.get(t, "PropTypes.any")]. *)
Definition prop_type_of (t : pytype) : string :=
  match _PROP_TYPES t with
  | Some s => s
  | None => "PropTypes.any"
  end.

(** The PropTypes string of one schema entry. *)
Definition prop_type_string (expected_type : expected) : string :=
  match expected_type with
  | Tuple ts => Str.join " || " (map prop_type_of ts)
  | One t => prop_type_of t
  end.

(** Generate React component props from widget config. *)
Definition generate_react_props (widget : Widget) : ReactProps :=
  let component_name :=
    Dict.get_default type_map (widget_type widget) "Widget" in
  let props0 :=
    Dict.update [] (config widget
                      ++ [("visible", VBool (visible widget));
                          ("id", VStr (widget_id widget))]) in
  let props1 :=
    if Str.truthy (label widget)
    then Dict.set props0 "aria-label" (VStr (label widget))
    else props0 in
  (* Build PropTypes string *)
  let schema := Dict.get_default _CONFIG_SCHEMAS (widget_type widget) [] in
  let prop_types :=
    fold_left
      (fun acc kv => Dict.set acc (fst kv) (prop_type_string (snd kv)))
      schema
      [("id", "PropTypes.string"); ("visible", "PropTypes.bool")] in
  (* Default props *)
  let defaults :=
    fold_left
      (fun acc kv =>
         match snd kv with
         | VNone => acc
         | val => Dict.set acc (fst kv) val
         end)
      (config widget)
      [("visible", VBool true)] in
  {| componentName := component_name;
     props := props1;
     propTypes := prop_types;
     defaultProps := defaults;
     position_dict := asdict (position widget) |}.

(* ------------------------------------------------------------------ *)
(** ** Validation *)
(* ------------------------------------------------------------------ *)

(** The error of one schema entry, when the config has the key and its
    value is of another class. *)
Definition field_errors (cfg : dict value) (kv : string * expected)
  : list string :=
  let (key, expected_type) := kv in
  match Dict.get cfg key with
  | None => []   (* optional *)
  | Some value =>
      match expected_type with
      | Tuple ts =>
          if negb (isinstance value expected_type)
          then ["'" ++ key ++ "' must be one of " ++ tuple_repr ts
                    ++ ", got " ++ type_name (type_of value)]
          else []
      | One t =>
          if negb (isinstance value expected_type)
          then ["'" ++ key ++ "' must be " ++ type_name t
                    ++ ", got " ++ type_name (type_of value)]
          else []
      end
  end.

(** Return list of validation error strings. *)
Definition validate_config (widget : Widget) : list string :=
  if negb (is_widget_type (widget_type widget)) then
    ["Unknown widget type: " ++ widget_type widget]
  else
    let schema := Dict.get_default _CONFIG_SCHEMAS (widget_type widget) [] in
    let errors := flat_map (field_errors (config widget)) schema in
    let pos := position widget in
    let errors := app errors
      (if negb ((0 <=? x pos) && (x pos <=? 12))
       then ["Position x=" ++ Str.of_int (x pos) ++ " out of range [0,12]"]
       else []) in
    let errors := app errors
      (if negb ((1 <=? width pos) && (width pos <=? 12))
       then ["Width=" ++ Str.of_int (width pos) ++ " out of range [1,12]"]
       else []) in
    let errors := app errors
      (if x pos + width pos >? 12
       then ["Widget overflows grid: x(" ++ Str.of_int (x pos)
               ++ ") + width(" ++ Str.of_int (width pos) ++ ") > 12"]
       else []) in
    let errors := app errors
      (if height pos <? 1
       then ["Height must be >= 1, got " ++ Str.of_int (height pos)]
       else []) in
    let errors := app errors
      (if negb (Str.truthy (widget_id widget))
       then ["widget_id is required"]
       else []) in
    errors.

(* ------------------------------------------------------------------ *)
(** ** Layout export *)
(* ------------------------------------------------------------------ *)

Section Exporter.

(** [json.dumps(obj, indent=2)]; it returns a string for every object
    of [value]. *)
Variable json_dumps : value -> string.

(** The lines one widget adds to the CSS export. *)
Definition css_widget_lines (w : Widget) : list string :=
  let p := position w in
  let cls := ".widget-" ++ Str.take 8 (widget_id w) in
  [cls ++ " {";
   "  grid-column: " ++ Str.of_int (x p + 1) ++ " / span "
     ++ Str.of_int (width p) ++ ";";
   "  grid-row: " ++ Str.of_int (y p + 1) ++ " / span "
     ++ Str.of_int (height p) ++ ";";
   "}";
   ""].

(** The row one widget adds to the HTML export. *)
Definition html_widget_row (w : Widget) : string :=
  let props := generate_react_props w in
  let style :=
    "grid-column: " ++ Str.of_int (x (position w) + 1) ++ " / span "
      ++ Str.of_int (width (position w)) ++ "; "
      ++ "grid-row: " ++ Str.of_int (y (position w) + 1) ++ " / span "
      ++ Str.of_int (height (position w)) ++ ";" in
  "  <div class=" ++ Str.dq ++ "widget widget-" ++ widget_type w ++ Str.dq
    ++ " data-id=" ++ Str.dq ++ widget_id w ++ Str.dq
    ++ " style=" ++ Str.dq ++ style ++ Str.dq ++ ">"
    ++ "<!-- " ++ componentName props ++ " --></div>".

(** Export layout to JSON or CSS Grid representation.
    fmt: 'json' | 'css' | 'html' *)
Definition export_layout (layout : WidgetLayout) (fmt : string)
  : result string :=
  if String.eqb fmt "json" then
    let data :=
      [("name", VStr (name layout));
       ("columns", VInt (columns layout));
       ("row_height", VInt (row_height layout));
       ("widgets",
        VList (map (fun w => VDict (serialize_widget w)) (widgets layout)))] in
    Ok (json_dumps (VDict data))
  else if String.eqb fmt "css" then
    let lines :=
      ["/* Layout: " ++ name layout ++ " */";
       ".layout-" ++ Str.lower (Str.replace " " "-" (name layout)) ++ " {";
       "  display: grid;";
       "  grid-template-columns: repeat(" ++ Str.of_int (columns layout)
         ++ ", 1fr);";
       "  row-gap: " ++ Str.of_int (row_height layout) ++ "px;";
       "}";
       ""] in
    let lines :=
      fold_left (fun lines w => app lines (css_widget_lines w))
                (widgets layout) lines in
    Ok (Str.join Str.nl lines)
  else if String.eqb fmt "html" then
    let rows :=
      ["<!-- Layout: " ++ name layout ++ " -->";
       "<div class=" ++ Str.dq ++ "grid-layout" ++ Str.dq
         ++ " data-columns=" ++ Str.dq ++ Str.of_int (columns layout)
         ++ Str.dq ++ ">"] in
    let rows :=
      fold_left (fun rows w => app rows [html_widget_row w])
                (widgets layout) rows in
    let rows := app rows ["</div>"] in
    Ok (Str.join Str.nl rows)
  else
    Raise (ValueError ("Unsupported export format: " ++ fmt
                         ++ ". Use json, css, or html.")).

End Exporter.

(* ================================================================== *)
(** * Vocabulary of the properties *)
(* ================================================================== *)

(** The predicates and loops the statements below are written with, the
    CSS sheet in the words of the specification, and the concrete widgets
    and layouts the statements are tried on. *)

(** The schema [validate_config] looks the fields up in. *)
Definition schema_of (w : Widget) : dict expected :=
  Dict.get_default _CONFIG_SCHEMAS (widget_type w) [].

(** A value has the expected kind when its class is the expected class,
    or one of the expected classes. *)
Definition has_kind (v : value) (e : expected) : bool :=
  match e with
  | One t => pytype_eqb (type_of v) t
  | Tuple ts => existsb (pytype_eqb (type_of v)) ts
  end.

(** Every config field that the schema names has the expected kind. *)
Definition conforms (cfg : dict value) (schema : dict expected) : bool :=
  forallb (fun kv => match Dict.get cfg (fst kv) with
                     | Some v => has_kind v (snd kv)
                     | None => true
                     end) schema.

(** The widgets of the test suite. *)
Definition button_widget : Widget :=
  {| widget_type := "button";
     config := [("label", VStr "Submit"); ("variant", VStr "primary");
                ("disabled", VBool false)];
     position := {| x := 0; y := 0; width := 3; height := 1 |};
     widget_id := "3f2b8c1e-5d47-4a90-9b6e-0c1d2e3f4a5b";
     label := "Submit";
     visible := true;
     created_at := "2024-01-01T00:00:00";
     db_id := None |}.

Definition overflow_widget : Widget :=
  {| widget_type := "button";
     config := [];
     position := {| x := 10; y := 0; width := 5; height := 1 |};
     widget_id := "7a1c9e02-33b4-4f6d-8e21-5b0a9c8d7e6f";
     label := "";
     visible := true;
     created_at := "2024-01-01T00:00:00";
     db_id := None |}.

Definition nonexistent_widget : Widget :=
  {| widget_type := "nonexistent";
     config := [("label", VInt 3)];
     position := {| x := 10; y := 0; width := 5; height := 0 |};
     widget_id := "";
     label := "";
     visible := true;
     created_at := "2024-01-01T00:00:00";
     db_id := None |}.

(** A button that conforms in type, position and config, and whose
    identifier is the empty string. *)
Definition unnamed_button : Widget :=
  {| widget_type := "button";
     config := [("label", VStr "Submit"); ("disabled", VBool false)];
     position := {| x := 0; y := 0; width := 3; height := 1 |};
     widget_id := "";
     label := "Submit";
     visible := true;
     created_at := "2024-01-01T00:00:00";
     db_id := None |}.

(** A config that itself has the keys "id" and "visible". *)
Definition shadowing_widget : Widget :=
  {| widget_type := "slider";
     config := [("visible", VBool false); ("id", VInt 3); ("min", VNone)];
     position := {| x := 0; y := 0; width := 4; height := 2 |};
     widget_id := "c0ffee00-1234-4abc-8def-0123456789ab";
     label := "";
     visible := true;
     created_at := "2024-01-01T00:00:00";
     db_id := None |}.

(** The loop that fills [defaultProps]. *)
Definition defaults_loop (cfg acc : dict value) : dict value :=
  fold_left
    (fun acc kv =>
       match snd kv with
       | VNone => acc
       | val => Dict.set acc (fst kv) val
       end)
    cfg acc.

(** [v is None]. *)
Definition is_none (v : value) : bool :=
  match v with
  | VNone => true
  | _ => false
  end.

(** No key occurs twice, as a test. *)
Fixpoint unique_keys {A : Type} (d : dict A) : bool :=
  match d with
  | [] => true
  | (k, _) :: d' => negb (Dict.mem d' k) && unique_keys d'
  end.

(** A config whose own "visible" entry is [False]. *)
Definition hidden_by_config : Widget :=
  {| widget_type := "button";
     config := [("label", VStr "Submit"); ("visible", VBool false)];
     position := {| x := 0; y := 0; width := 3; height := 1 |};
     widget_id := "5e6f7a8b-0000-4c1d-9e2f-a1b2c3d4e5f6";
     label := "";
     visible := true;
     created_at := "2024-01-01T00:00:00";
     db_id := None |}.

(** A button that has been saved: its storage handle is row 7. *)
Definition persisted_button : Widget :=
  {| widget_type := "button";
     config := [("label", VStr "Submit")];
     position := {| x := 0; y := 0; width := 3; height := 1 |};
     widget_id := "3f2b8c1e-5d47-4a90-9b6e-0c1d2e3f4a5b";
     label := "Submit";
     visible := true;
     created_at := "2024-01-01T00:00:00";
     db_id := Some 7 |}.

(** A parser that reads no text, and an environment. *)
Definition no_json : string -> result value := fun _ => Raise JSONDecodeError.
Definition env0 : Env :=
  {| uuid4 := "9b2d6c3a-7e41-4f58-a0c9-d1e2f3a4b5c6";
     utcnow := "2024-06-01T12:00:00" |}.

(** Every line followed by a line feed. *)
Fixpoint unlines (lines : list string) : string :=
  match lines with
  | [] => ""
  | line :: rest => line ++ Str.nl ++ unlines rest
  end.

Module CssSpec.

(** The CSS export in the words of the specification: the selector of
    the layout block is the layout name lower-cased, with spaces
    replaced by hyphens; the selector of a widget block uses the first 8
    characters of the widget's identifier. *)
Definition layout_selector (l : WidgetLayout) : string :=
  ".layout-" ++ Str.replace " " "-" (Str.lower (name l)).

Definition widget_selector (w : Widget) : string :=
  ".widget-" ++ String.substring 0 8 (widget_id w).

(** The top-level block: [display: grid],
    [grid-template-columns: repeat(columns, 1fr)] and
    [row-gap: row_height px]. *)
Definition layout_block (l : WidgetLayout) : string :=
  layout_selector l ++ " {" ++ Str.nl
  ++ "  display: grid;" ++ Str.nl
  ++ "  grid-template-columns: repeat(" ++ Str.of_int (columns l) ++ ", 1fr);"
  ++ Str.nl
  ++ "  row-gap: " ++ Str.of_int (row_height l) ++ "px;" ++ Str.nl
  ++ "}" ++ Str.nl.

(** The block of one widget: [grid-column: x+1 / span width] and
    [grid-row: y+1 / span height]. *)
Definition widget_block (w : Widget) : string :=
  widget_selector w ++ " {" ++ Str.nl
  ++ "  grid-column: " ++ Str.of_int (x (position w) + 1) ++ " / span "
  ++ Str.of_int (width (position w)) ++ ";" ++ Str.nl
  ++ "  grid-row: " ++ Str.of_int (y (position w) + 1) ++ " / span "
  ++ Str.of_int (height (position w)) ++ ";" ++ Str.nl
  ++ "}" ++ Str.nl.

(** The whole sheet: a comment that names the layout, the layout block,
    and one block per widget in the order of the layout, each after an
    empty line. *)
Definition sheet (l : WidgetLayout) : string :=
  "/* Layout: " ++ name l ++ " */" ++ Str.nl
  ++ layout_block l
  ++ String.concat "" (map (fun w => Str.nl ++ widget_block w) (widgets l)).

End CssSpec.

(** A layout without widgets. *)
Definition empty_dashboard : WidgetLayout :=
  {| name := "My Dashboard";
     widgets := [];
     columns := 12;
     row_height := 60;
     layout_id := None;
     layout_created_at := "2024-01-01T00:00:00" |}.

(** ** Further vocabulary *)

(** Every config field that the schema names passes [isinstance]. *)
Definition accepts (cfg : dict value) (schema : dict expected) : bool :=
  forallb (fun kv => match Dict.get cfg (fst kv) with
                     | Some v => isinstance v (snd kv)
                     | None => true
                     end) schema.

(** [int] is the expected class, or one of the expected classes. *)
Definition admits_int (e : expected) : bool :=
  match e with
  | One t => pytype_eqb TInt t
  | Tuple ts => existsb (pytype_eqb TInt) ts
  end.

(** The widget with another config. *)
Definition set_config (w : Widget) (cfg : dict value) : Widget :=
  {| widget_type := widget_type w; config := cfg; position := position w;
     widget_id := widget_id w; label := label w; visible := visible w;
     created_at := created_at w; db_id := db_id w |}.

(** The message of the overflow check. *)
Definition overflow_message (p : Position) : string :=
  "Widget overflows grid: x(" ++ Str.of_int (x p)
    ++ ") + width(" ++ Str.of_int (width p) ++ ") > 12".

(** The valid types that have no schema. *)
Definition schemaless_types : list string :=
  ["accordion"; "navbar"; "sidebar"; "form"].

(** A sidebar, one of the types without a schema. *)
Definition sidebar_widget : Widget :=
  {| widget_type := "sidebar";
     config := [("items", VInt 3); ("collapsed", VNone)];
     position := {| x := 0; y := 0; width := 2; height := 8 |};
     widget_id := "d4c3b2a1-0f9e-4d8c-b7a6-5f4e3d2c1b0a";
     label := "";
     visible := true;
     created_at := "2024-01-01T00:00:00";
     db_id := None |}.

(** [json.loads] on the one text used below, the empty object. *)
Definition loads_empty_object (s : string) : result value :=
  if String.eqb s "{}" then Ok (VDict []) else Raise JSONDecodeError.

(** The layout with another list of widgets. *)
Definition set_widgets (l : WidgetLayout) (ws : list Widget) : WidgetLayout :=
  {| name := name l; widgets := ws; columns := columns l;
     row_height := row_height l; layout_id := layout_id l;
     layout_created_at := layout_created_at l |}.




(* ------------------------------------------------------------------ *)
(** ** Database *)
(* ------------------------------------------------------------------ *)

(** The two tables of [_init_schema], as far as the functions below
    read them: the columns [created_at] and [updated_at], which get
    their values from the database clock and are read by no function
    modelled here, are left out.  The reference from [layout_id] to the
    layouts table is not enforced, as the connection does not turn
    foreign keys on.  Rows are kept in the order of their row ids. *)
Record WidgetRow : Type := mkWidgetRow {
  r_id : Z;                      (* INTEGER PRIMARY KEY AUTOINCREMENT *)
  r_layout_id : option Z;        (* INTEGER, may be NULL *)
  r_widget_id : string;          (* TEXT NOT NULL UNIQUE *)
  r_widget_type : string;        (* TEXT NOT NULL *)
  r_label : string;              (* TEXT NOT NULL *)
  r_config : string;             (* TEXT NOT NULL *)
  r_pos_x : Z;
  r_pos_y : Z;
  r_pos_width : Z;
  r_pos_height : Z;
  r_visible : Z
}.

Record LayoutRow : Type := mkLayoutRow {
  l_id : Z;                      (* INTEGER PRIMARY KEY AUTOINCREMENT *)
  l_name : string;               (* TEXT NOT NULL UNIQUE *)
  l_columns : Z;
  l_row_height : Z
}.

(** The state behind a connection: the rows of the two tables, and for
    each table the largest row id it ever had (the [sqlite_sequence]
    entry of an AUTOINCREMENT key). *)
Record Db : Type := mkDb {
  widget_rows : list WidgetRow;
  widget_seq : Z;
  layout_rows : list LayoutRow;
  layout_seq : Z
}.

(** The database [get_db] makes of a new file. *)
Definition empty_db : Db :=
  {| widget_rows := []; widget_seq := 0; layout_rows := []; layout_seq := 0 |}.

(** What the database calls raise: the exceptions of [sqlite3], and the
    exceptions of the other modelled calls. *)
Inductive db_exn : Type :=
| IntegrityError (msg : string)
| OverflowError
| OperationalError (msg : string)
| PyError (e : exn).

(** A call that reads and writes the database and can raise.  What a
    call stored before it raises stays stored. *)
Definition DbM (A : Type) : Type := Db -> (A + db_exn) * Db.

Definition db_ret {A : Type} (a : A) : DbM A := fun db => (inl a, db).

Definition db_raise {A : Type} (e : db_exn) : DbM A := fun db => (inr e, db).

Definition db_bind {A B : Type} (m : DbM A) (k : A -> DbM B) : DbM B :=
  fun db =>
    match m db with
    | (inl a, db') => k a db'
    | (inr e, db') => (inr e, db')
    end.

Notation "x <-- m ;; k" := (db_bind m (fun x => k))
  (at level 61, m at next level, right associativity).

(** A connection; the state it gives access to is threaded by [DbM]. *)
Inductive connection : Type := Connection.

Module Sql.

(** An [int] is bound to a statement as a 64-bit integer. *)
Definition fits_int64 (n : Z) : bool :=
  (- 2 ^ 63 <=? n) && (n <=? 2 ^ 63 - 1).

Definition fits_int64_opt (n : option Z) : bool :=
  match n with
  | Some n => fits_int64 n
  | None => true
  end.

(** The largest row id of a table, 0 for an empty table. *)
Definition max_id {R : Type} (id : R -> Z) (rows : list R) : Z :=
  fold_right (fun r m => Z.max (id r) m) 0 rows.

(** The row id of the next row of an AUTOINCREMENT table: one more than
    the largest row id the table ever had. *)
Definition next_id {R : Type} (id : R -> Z) (rows : list R) (seq : Z) : Z :=
  Z.max seq (max_id id rows) + 1.

(** [INSERT INTO widgets(widget_id, layout_id, widget_type, label,
    config, pos_x, pos_y, pos_width, pos_height, visible) VALUES(...)],
    returning [lastrowid]. *)
Definition insert_widget (widget_id : string) (layout_id : option Z)
    (widget_type label config : string) (pos_x pos_y pos_width pos_height : Z)
    (visible : Z) : DbM Z :=
  fun db =>
    if negb (fits_int64_opt layout_id && fits_int64 pos_x && fits_int64 pos_y
             && fits_int64 pos_width && fits_int64 pos_height
             && fits_int64 visible)
    then (inr OverflowError, db)
    else
      let id := next_id r_id (widget_rows db) (widget_seq db) in
      if 2 ^ 63 - 1 <? id
      then (inr (OperationalError "database or disk is full"), db)
      else if existsb (fun r => String.eqb (r_widget_id r) widget_id)
                      (widget_rows db)
      then (inr (IntegrityError "UNIQUE constraint failed: widgets.widget_id"),
            db)
      else
        (inl id,
         {| widget_rows :=
              app (widget_rows db)
                  [{| r_id := id; r_layout_id := layout_id;
                      r_widget_id := widget_id;
                      r_widget_type := widget_type; r_label := label;
                      r_config := config;
                      r_pos_x := pos_x; r_pos_y := pos_y;
                      r_pos_width := pos_width; r_pos_height := pos_height;
                      r_visible := visible |}];
            widget_seq := id;
            layout_rows := layout_rows db;
            layout_seq := layout_seq db |}).

(** [UPDATE widgets SET widget_type=?, label=?, config=?, pos_x=?,
    pos_y=?, pos_width=?, pos_height=?, visible=? WHERE id=?]. *)
Definition update_widget (widget_type label config : string)
    (pos_x pos_y pos_width pos_height : Z) (visible : Z) (id : Z) : DbM unit :=
  fun db =>
    if negb (fits_int64 pos_x && fits_int64 pos_y && fits_int64 pos_width
             && fits_int64 pos_height && fits_int64 visible && fits_int64 id)
    then (inr OverflowError, db)
    else
      (inl tt,
       {| widget_rows :=
            map (fun r =>
                   if r_id r =? id
                   then {| r_id := r_id r; r_layout_id := r_layout_id r;
                           r_widget_id := r_widget_id r;
                           r_widget_type := widget_type; r_label := label;
                           r_config := config;
                           r_pos_x := pos_x; r_pos_y := pos_y;
                           r_pos_width := pos_width;
                           r_pos_height := pos_height;
                           r_visible := visible |}
                   else r)
                (widget_rows db);
          widget_seq := widget_seq db;
          layout_rows := layout_rows db;
          layout_seq := layout_seq db |}).

(** [SELECT * FROM widgets WHERE widget_id=?], [fetchone()]. *)
Definition select_widget (widget_id : string) : DbM (option WidgetRow) :=
  fun db =>
    (inl (find (fun r => String.eqb (r_widget_id r) widget_id)
               (widget_rows db)), db).

(** [DELETE FROM widgets WHERE widget_id=?], returning [rowcount]. *)
Definition delete_widget_rows (widget_id : string) : DbM Z :=
  fun db =>
    let hit := fun r => String.eqb (r_widget_id r) widget_id in
    (inl (Z.of_nat (List.length (filter hit (widget_rows db)))),
     {| widget_rows := filter (fun r => negb (hit r)) (widget_rows db);
        widget_seq := widget_seq db;
        layout_rows := layout_rows db;
        layout_seq := layout_seq db |}).

(** [INSERT INTO layouts(name, columns, row_height) VALUES(?,?,?)],
    returning [lastrowid]. *)
Definition insert_layout (name : string) (columns row_height : Z) : DbM Z :=
  fun db =>
    if negb (fits_int64 columns && fits_int64 row_height)
    then (inr OverflowError, db)
    else
      let id := next_id l_id (layout_rows db) (layout_seq db) in
      if 2 ^ 63 - 1 <? id
      then (inr (OperationalError "database or disk is full"), db)
      else if existsb (fun r => String.eqb (l_name r) name) (layout_rows db)
      then (inr (IntegrityError "UNIQUE constraint failed: layouts.name"), db)
      else
        (inl id,
         {| widget_rows := widget_rows db;
            widget_seq := widget_seq db;
            layout_rows :=
              app (layout_rows db)
                  [{| l_id := id; l_name := name; l_columns := columns;
                      l_row_height := row_height |}];
            layout_seq := id |}).

(** [UPDATE layouts SET name=?, columns=?, row_height=?,
    updated_at=datetime('now') WHERE id=?]. *)
Definition update_layout (name : string) (columns row_height : Z) (id : Z)
  : DbM unit :=
  fun db =>
    if negb (fits_int64 columns && fits_int64 row_height && fits_int64 id)
    then (inr OverflowError, db)
    else if existsb (fun r => l_id r =? id) (layout_rows db)
            && existsb (fun r => String.eqb (l_name r) name
                                 && negb (l_id r =? id))
                       (layout_rows db)
    then (inr (IntegrityError "UNIQUE constraint failed: layouts.name"), db)
    else
      (inl tt,
       {| widget_rows := widget_rows db;
          widget_seq := widget_seq db;
          layout_rows :=
            map (fun r =>
                   if l_id r =? id
                   then {| l_id := l_id r; l_name := name;
                           l_columns := columns;
                           l_row_height := row_height |}
                   else r)
                (layout_rows db);
          layout_seq := layout_seq db |}).

End Sql.

(** The widget with another storage handle: [widget.db_id = h]. *)
Definition set_db_id (w : Widget) (h : option Z) : Widget :=
  {| widget_type := widget_type w; config := config w; position := position w;
     widget_id := widget_id w; label := label w; visible := visible w;
     created_at := created_at w; db_id := h |}.

(** [int(b)] and [bool(n)]. *)
Definition int_of_bool (b : bool) : Z := if b then 1 else 0.
Definition bool_of_int (n : Z) : bool := negb (n =? 0).

Section Store.

(** [json.dumps(obj)] and [json.loads]. *)
Variable json_dumps : value -> string.
Variable json_loads : string -> result value.

(** Widget CRUD. *)
Definition save_widget (widget : Widget) (layout_id : option Z)
    (conn : option connection) : DbM Widget :=
  match conn with
  | None => db_ret widget
  | Some _ =>
      let pos := position widget in
      match db_id widget with
      | None =>
          lastrowid <-- Sql.insert_widget
                          (widget_id widget) layout_id (widget_type widget)
                          (label widget) (json_dumps (VDict (config widget)))
                          (x pos) (y pos) (width pos) (height pos)
                          (int_of_bool (visible widget)) ;;
          db_ret (set_db_id widget (Some lastrowid))
      | Some id =>
          _ <-- Sql.update_widget
                  (widget_type widget) (label widget)
                  (json_dumps (VDict (config widget)))
                  (x pos) (y pos) (width pos) (height pos)
                  (int_of_bool (visible widget)) id ;;
          db_ret widget
      end
  end.

Definition _row_to_widget (env : Env) (row : WidgetRow) : result Widget :=
  a_config <- json_loads (r_config row) ;;
  f_config <- as_dict "config" a_config ;;
  Ok {| widget_id := r_widget_id row;
        widget_type := r_widget_type row;
        label := r_label row;
        config := f_config;
        position := {| x := r_pos_x row; y := r_pos_y row;
                       width := r_pos_width row;
                       height := r_pos_height row |};
        visible := bool_of_int (r_visible row);
        created_at := utcnow env;
        db_id := Some (r_id row) |}.

Definition load_widget (env : Env) (widget_id : string)
  : DbM (option Widget) :=
  row <-- Sql.select_widget widget_id ;;
  match row with
  | None => db_ret None
  | Some row =>
      match _row_to_widget env row with
      | Ok w => db_ret (Some w)
      | Raise e => db_raise (PyError e)
      end
  end.

Definition delete_widget (widget_id : string) : DbM bool :=
  rowcount <-- Sql.delete_widget_rows widget_id ;;
  db_ret (rowcount >? 0).

(** The loop of [save_layout] over the widgets of the layout. *)
Fixpoint save_widgets (ws : list Widget) (layout_id : option Z)
  : DbM (list Widget) :=
  match ws with
  | [] => db_ret []
  | widget :: rest =>
      widget' <-- save_widget widget layout_id (Some Connection) ;;
      rest' <-- save_widgets rest layout_id ;;
      db_ret (widget' :: rest')
  end.

(** Layout CRUD. *)
Definition save_layout (layout : WidgetLayout) : DbM WidgetLayout :=
  id <-- match layout_id layout with
         | None =>
             lastrowid <-- Sql.insert_layout (name layout) (columns layout)
                             (row_height layout) ;;
             db_ret (Some lastrowid)
         | Some id =>
             _ <-- Sql.update_layout (name layout) (columns layout)
                     (row_height layout) id ;;
             db_ret (Some id)
         end ;;
  ws <-- save_widgets (widgets layout) id ;;
  db_ret {| name := name layout; widgets := ws; columns := columns layout;
            row_height := row_height layout; layout_id := id;
            layout_created_at := layout_created_at layout |}.

End Store.

(** The row that [save_widget] stores for a new widget. *)
Definition row_of (json_dumps : value -> string) (w : Widget)
    (layout_id : option Z) (id : Z) : WidgetRow :=
  {| r_id := id; r_layout_id := layout_id;
     r_widget_id := widget_id w;
     r_widget_type := widget_type w; r_label := label w;
     r_config := json_dumps (VDict (config w));
     r_pos_x := x (position w); r_pos_y := y (position w);
     r_pos_width := width (position w);
     r_pos_height := height (position w);
     r_visible := int_of_bool (visible w) |}.

(** Some row has this identifier. *)
Definition stored (db : Db) (wid : string) : bool :=
  existsb (fun r => String.eqb (r_widget_id r) wid) (widget_rows db).

(** A dumper and a parser for the one config used below, the empty one. *)
Definition dumps_empty_object (v : value) : string := "{}".

(** A widget with an empty config. *)
Definition plain_widget : Widget :=
  {| widget_type := "card";
     config := [];
     position := {| x := 0; y := 2; width := 6; height := 3 |};
     widget_id := "0a1b2c3d-4e5f-4a6b-8c7d-9e0f1a2b3c4d";
     label := "Summary";
     visible := false;
     created_at := "2024-01-01T00:00:00";
     db_id := None |}.

(** The layout a row is attached to, for every row of the table. *)
Definition attachments (db : Db) : list (Z * option Z) :=
  map (fun r => (r_id r, r_layout_id r)) (widget_rows db).

(** A layout whose two widgets have been saved before. *)
Definition saved_dashboard : WidgetLayout :=
  {| name := "My Dashboard";
     widgets := [set_db_id button_widget (Some 1);
                 set_db_id plain_widget (Some 2)];
     columns := 12;
     row_height := 60;
     layout_id := None;
     layout_created_at := "2024-01-01T00:00:00" |}.

(** The table after the two widgets have been saved without a layout. *)
Definition two_widgets_db : Db :=
  {| widget_rows := [row_of dumps_empty_object button_widget None 1;
                     row_of dumps_empty_object plain_widget None 2];
     widget_seq := 2; layout_rows := []; layout_seq := 0 |}.


(** Some layout row has this name. *)
Definition layout_stored (db : Db) (n : string) : bool :=
  existsb (fun r => String.eqb (l_name r) n) (layout_rows db).

(** A layout that was not saved, with two widgets that were not saved. *)
Definition new_dashboard : WidgetLayout :=
  {| name := "My Dashboard";
     widgets := [button_widget; plain_widget];
     columns := 12;
     row_height := 60;
     layout_id := None;
     layout_created_at := "2024-01-01T00:00:00" |}.



Definition saved_new_dashboard_db : Db :=
  {| widget_rows := [row_of dumps_empty_object button_widget (Some 1) 1;
                     row_of dumps_empty_object plain_widget (Some 1) 2];
     widget_seq := 2;
     layout_rows := [{| l_id := 1; l_name := "My Dashboard";
                        l_columns := 12; l_row_height := 60 |}];
     layout_seq := 1 |}.

(* ================================================================== *)
(** * Properties *)
(* ================================================================== *)

Local Infix "+++" := app (right associativity, at level 60).

(** ** Strings *)

Lemma append_nil_r (s : string) : s ++ "" = s.
Proof. induction s as [|c s IH]; simpl; [reflexivity | now rewrite IH]. Qed.

Lemma append_assoc (a b c : string) : (a ++ b) ++ c = a ++ (b ++ c).
Proof. induction a as [|ch a IH]; simpl; [reflexivity | now rewrite IH]. Qed.

Lemma startswith_append (p s : string) : Str.startswith p (p ++ s) = true.
Proof.
  induction p as [|c p IH]; simpl; [reflexivity|].
  now rewrite Ascii.eqb_refl, IH.
Qed.

Lemma contains_here (sub s : string) :
  Str.startswith sub s = true -> Str.contains sub s = true.
Proof. intros H. destruct s; simpl in *; now rewrite H. Qed.

(** A string occurs in every string built around it. *)
Lemma contains_middle (sub before after : string) :
  Str.contains sub (before ++ sub ++ after) = true.
Proof.
  induction before as [|c before IH]; simpl.
  - apply contains_here, startswith_append.
  - rewrite IH. apply orb_true_r.
Qed.

Lemma lower_char_replace (c : ascii) :
  Str.lower_char (if Ascii.eqb c " " then "-"%char else c)
  = if Ascii.eqb (Str.lower_char c) " " then "-"%char else Str.lower_char c.
Proof. destruct c as [[] [] [] [] [] [] [] []]; reflexivity. Qed.

(** Lower-casing and replacing spaces by hyphens commute. *)
Lemma lower_replace_comm (s : string) :
  Str.lower (Str.replace " " "-" s) = Str.replace " " "-" (Str.lower s).
Proof.
  induction s as [|c s IH]; simpl; [reflexivity|].
  now rewrite IH, lower_char_replace.
Qed.

(** [s[:n]] is the library's substring from position 0. *)
Lemma take_substring (n : nat) (s : string) :
  Str.take n s = String.substring 0 n s.
Proof.
  revert s; induction n as [|n IH]; intros [|c s]; simpl; try reflexivity.
  now rewrite IH.
Qed.

(** ** Dictionaries *)

Module DictFacts.
Section Facts.
Context {A : Type}.
Implicit Types (d : dict A) (k : string) (v : A).

Lemma get_set_same d k v : Dict.get (Dict.set d k v) k = Some v.
Proof.
  induction d as [|[k' v'] d IH]; simpl.
  - now rewrite String.eqb_refl.
  - destruct (String.eqb k' k) eqn:E; simpl; now rewrite E.
Qed.

Lemma get_set_other d k k' v :
  k <> k' -> Dict.get (Dict.set d k v) k' = Dict.get d k'.
Proof.
  intros Hne. induction d as [|[k0 v0] d IH]; simpl.
  - apply String.eqb_neq in Hne. now rewrite Hne.
  - destruct (String.eqb k0 k) eqn:E; simpl.
    + apply String.eqb_eq in E; subst k0.
      apply String.eqb_neq in Hne. now rewrite Hne.
    + now rewrite IH.
Qed.

Lemma update_snoc d items k v :
  Dict.update d (items ++ [(k, v)])%list = Dict.set (Dict.update d items) k v.
Proof. unfold Dict.update. now rewrite fold_left_app. Qed.

Lemma get_not_mem d k : Dict.mem d k = false -> Dict.get d k = None.
Proof. unfold Dict.mem. now destruct (Dict.get d k). Qed.
End Facts.
End DictFacts.

(** ** Validation *)

Lemma has_kind_isinstance (v : value) (e : expected) :
  has_kind v e = true -> isinstance v e = true.
Proof.
  destruct e as [t|ts]; simpl; unfold isinstance1, issubclass.
  - intros ->. reflexivity.
  - rewrite !existsb_exists. intros [t [Hin Ht]].
    exists t. split; [assumption|]. now rewrite Ht.
Qed.

Lemma field_errors_nil (cfg : dict value) (schema : dict expected) :
  conforms cfg schema = true -> flat_map (field_errors cfg) schema = [].
Proof.
  unfold conforms. induction schema as [|[key e] schema IH]; simpl.
  - reflexivity.
  - intros H. apply andb_true_iff in H as [Hk Hrest].
    rewrite (IH Hrest), app_nil_r.
    destruct (Dict.get cfg key) as [v|]; [|reflexivity].
    apply has_kind_isinstance in Hk.
    destruct e; rewrite Hk; reflexivity.
Qed.

(** What [validate_config] returns once the type is known. *)
Lemma validate_config_known (w : Widget) :
  is_widget_type (widget_type w) = true ->
  validate_config w =
    (flat_map (field_errors (config w)) (schema_of w)
     +++ (if negb ((0 <=? x (position w)) && (x (position w) <=? 12))
         then ["Position x=" ++ Str.of_int (x (position w))
                 ++ " out of range [0,12]"]
         else [])
     +++ (if negb ((1 <=? width (position w)) && (width (position w) <=? 12))
         then ["Width=" ++ Str.of_int (width (position w))
                 ++ " out of range [1,12]"]
         else [])
     +++ (if x (position w) + width (position w) >? 12
         then ["Widget overflows grid: x(" ++ Str.of_int (x (position w))
                 ++ ") + width(" ++ Str.of_int (width (position w))
                 ++ ") > 12"]
         else [])
     +++ (if height (position w) <? 1
         then ["Height must be >= 1, got " ++ Str.of_int (height (position w))]
         else [])
     +++ (if negb (Str.truthy (widget_id w))
         then ["widget_id is required"]
         else [])).
Proof.
  intros H. unfold validate_config, schema_of. rewrite H. simpl negb. cbv iota zeta.
  now rewrite <- !app_assoc.
Qed.

(** C1, as stated, fails: a widget of a valid type, with an in-bounds
    position and a conforming config, still gets an error when its
    [widget_id] is empty. *)
Lemma validate_config_empty_id_counterexample :
  is_widget_type (widget_type unnamed_button) = true
  /\ 0 <= x (position unnamed_button) <= 12
  /\ 1 <= width (position unnamed_button) <= 12
  /\ x (position unnamed_button) + width (position unnamed_button) <= 12
  /\ height (position unnamed_button) >= 1
  /\ conforms (config unnamed_button) (schema_of unnamed_button) = true
  /\ validate_config unnamed_button = ["widget_id is required"]
  /\ validate_config unnamed_button <> [].
Proof.
  repeat split; try reflexivity; try (simpl; lia); discriminate.
Qed.

(** C1 (amended): a widget of a valid type, with [0 <= x <= 12],
    [1 <= width <= 12], [x + width <= 12], [height >= 1], every config
    field named by the schema of the expected kind, and a non-empty
    [widget_id], validates to the empty list. *)
Theorem validate_config_valid (w : Widget) :
  is_widget_type (widget_type w) = true ->
  0 <= x (position w) <= 12 ->
  1 <= width (position w) <= 12 ->
  x (position w) + width (position w) <= 12 ->
  height (position w) >= 1 ->
  conforms (config w) (schema_of w) = true ->
  widget_id w <> "" ->
  validate_config w = [].
Proof.
  intros Htype Hx Hwidth Hfit Hheight Hconf Hid.
  rewrite (validate_config_known w Htype), (field_errors_nil _ _ Hconf).
  replace ((0 <=? x (position w)) && (x (position w) <=? 12)) with true
    by (symmetry; apply andb_true_iff; split; apply Z.leb_le; lia).
  replace ((1 <=? width (position w)) && (width (position w) <=? 12)) with true
    by (symmetry; apply andb_true_iff; split; apply Z.leb_le; lia).
  replace (x (position w) + width (position w) >? 12) with false
    by (symmetry; rewrite Z.gtb_ltb; apply Z.ltb_ge; lia).
  replace (height (position w) <? 1) with false
    by (symmetry; apply Z.ltb_ge; lia).
  destruct (widget_id w); [contradiction|reflexivity].
Qed.

Lemma validate_config_valid_witness : validate_config button_widget = [].
Proof.
  apply (validate_config_valid button_widget);
    try reflexivity; try (simpl; lia); discriminate.
Defined.

(** C3: a widget whose type is not one of the enumerated types gets
    exactly one error, the unknown-type error, whatever its config,
    position and identifier are: none of them is looked at. *)
Theorem validate_config_unknown_type (w : Widget) :
  is_widget_type (widget_type w) = false ->
  validate_config w = ["Unknown widget type: " ++ widget_type w]
  /\ List.length (validate_config w) = 1%nat
  /\ (forall cfg pos wid,
        validate_config
          {| widget_type := widget_type w; config := cfg; position := pos;
             widget_id := wid; label := label w; visible := visible w;
             created_at := created_at w; db_id := db_id w |}
        = validate_config w).
Proof.
  intros H. unfold validate_config. simpl. rewrite H. simpl. auto.
Qed.

Lemma validate_config_unknown_type_witness :
  validate_config nonexistent_widget = ["Unknown widget type: nonexistent"].
Proof.
  apply (validate_config_unknown_type nonexistent_widget). reflexivity.
Defined.

(** C7: for a widget of a valid type with [x + width > 12], the errors
    include the overflow message, which contains the word "overflows". *)
Theorem validate_config_overflow (w : Widget) :
  is_widget_type (widget_type w) = true ->
  x (position w) + width (position w) > 12 ->
  exists e, In e (validate_config w) /\ Str.contains "overflows" e = true.
Proof.
  intros Htype Hover.
  exists ("Widget overflows grid: x(" ++ Str.of_int (x (position w))
            ++ ") + width(" ++ Str.of_int (width (position w)) ++ ") > 12").
  split; [|reflexivity].
  rewrite (validate_config_known w Htype).
  replace (x (position w) + width (position w) >? 12) with true
    by (symmetry; rewrite Z.gtb_ltb; apply Z.ltb_lt; lia).
  apply in_or_app; right. apply in_or_app; right. apply in_or_app; right.
  apply in_or_app; left. now left.
Qed.

Lemma validate_config_overflow_witness :
  exists e, In e (validate_config overflow_widget)
            /\ Str.contains "overflows" e = true.
Proof.
  apply (validate_config_overflow overflow_widget); [reflexivity | simpl; lia].
Defined.

(** ** React prop generation *)

(** C5: in [props] the key "id" holds the widget's identifier and the
    key "visible" holds the widget's flag, whatever the config holds
    under these two keys. *)
Theorem props_id_visible (w : Widget) :
  Dict.get (props (generate_react_props w)) "id" = Some (VStr (widget_id w))
  /\ Dict.get (props (generate_react_props w)) "visible"
     = Some (VBool (visible w)).
Proof.
  unfold generate_react_props; simpl props.
  change (config w +++ [("visible", VBool (visible w)); ("id", VStr (widget_id w))])
    with (config w +++ [("visible", VBool (visible w))] +++ [("id", VStr (widget_id w))]).
  rewrite app_assoc, !DictFacts.update_snoc.
  assert (Hid : forall d : dict value,
             Dict.get (Dict.set d "id" (VStr (widget_id w))) "id"
             = Some (VStr (widget_id w)))
    by (intros d; apply DictFacts.get_set_same).
  assert (Hvis : forall d : dict value,
             Dict.get (Dict.set (Dict.set d "visible" (VBool (visible w)))
                                "id" (VStr (widget_id w))) "visible"
             = Some (VBool (visible w))).
  { intros d. rewrite DictFacts.get_set_other by discriminate.
    apply DictFacts.get_set_same. }
  destruct (Str.truthy (label w)); split;
    rewrite ?(DictFacts.get_set_other _ "aria-label") by discriminate;
    auto.
Qed.

Example props_shadowing :
  props (generate_react_props shadowing_widget)
  = [("visible", VBool true);
     ("id", VStr "c0ffee00-1234-4abc-8def-0123456789ab");
     ("min", VNone)].
Proof. reflexivity. Qed.

Lemma unique_keys_wf {A : Type} (d : dict A) :
  unique_keys d = true -> Dict.wf d.
Proof.
  unfold Dict.wf, Dict.keys.
  induction d as [|[k v] d IH]; simpl; intros H; constructor.
  - apply andb_true_iff in H as [H _]. apply negb_true_iff in H.
    apply DictFacts.get_not_mem in H. clear IH.
    induction d as [|[k' v'] d IH]; simpl in *; [tauto|].
    destruct (String.eqb k' k) eqn:E; [discriminate|].
    apply String.eqb_neq in E. intros [Heq|Hin]; [congruence | now apply IH].
  - apply IH. now apply andb_true_iff in H as [_ H].
Qed.

Lemma get_absent {A : Type} (d : dict A) (k : string) :
  ~ In k (Dict.keys d) -> Dict.get d k = None.
Proof.
  induction d as [|[k' v'] d IH]; simpl; intros H; [reflexivity|].
  destruct (String.eqb k' k) eqn:E.
  - apply String.eqb_eq in E. tauto.
  - apply IH. tauto.
Qed.

(** After the loop, a key holds the config's value when that value is
    not [None], and what it held before otherwise. *)
Lemma defaults_loop_get (cfg : dict value) :
  Dict.wf cfg ->
  forall (acc : dict value) (k : string),
    Dict.get (defaults_loop cfg acc) k =
    match Dict.get cfg k with
    | Some v => if is_none v then Dict.get acc k else Some v
    | None => Dict.get acc k
    end.
Proof.
  unfold Dict.wf, Dict.keys, defaults_loop.
  induction cfg as [|[k0 v0] cfg IH]; simpl; intros Hwf acc k.
  - reflexivity.
  - inversion Hwf as [|? ? Hnotin Hrest]; subst.
    rewrite (IH Hrest). simpl.
    destruct (String.eqb k0 k) eqn:E.
    + apply String.eqb_eq in E; subst k0.
      rewrite (get_absent cfg k Hnotin).
      destruct v0; simpl; try reflexivity; apply DictFacts.get_set_same.
    + apply String.eqb_neq in E.
      destruct (Dict.get cfg k) as [v|]; [destruct (is_none v); [|reflexivity]|];
        destruct v0; simpl; try reflexivity;
        now apply DictFacts.get_set_other.
Qed.

(** C4, as stated, fails: when the config has a "visible" entry that is
    not [None], [defaultProps] maps "visible" to that entry, not to
    [True]. *)
Lemma defaultProps_visible_counterexample :
  Dict.get (defaultProps (generate_react_props hidden_by_config)) "visible"
  = Some (VBool false)
  /\ Dict.get (defaultProps (generate_react_props hidden_by_config)) "visible"
     <> Some (VBool true).
Proof. split; [reflexivity | discriminate]. Qed.

(** C4 (amended): [defaultProps] maps "visible" to [True] unless the
    config has a "visible" entry that is not [None], which it then
    maps "visible" to; it maps every config field whose value is not
    [None] to that value; and it has no other entry. *)
Theorem defaultProps_entries (w : Widget) :
  Dict.wf (config w) ->
  let defaults := defaultProps (generate_react_props w) in
  (Dict.get defaults "visible" =
     match Dict.get (config w) "visible" with
     | Some v => if is_none v then Some (VBool true) else Some v
     | None => Some (VBool true)
     end)
  /\ (forall k v, Dict.get (config w) k = Some v -> v <> VNone ->
                  Dict.get defaults k = Some v)
  /\ (forall k v, k <> "visible" -> Dict.get defaults k = Some v ->
                  Dict.get (config w) k = Some v /\ v <> VNone).
Proof.
  intros Hwf defaults.
  assert (Hget : forall k, Dict.get defaults k =
                   match Dict.get (config w) k with
                   | Some v => if is_none v
                               then Dict.get [("visible", VBool true)] k
                               else Some v
                   | None => Dict.get [("visible", VBool true)] k
                   end).
  { intros k. apply (defaults_loop_get (config w) Hwf). }
  split; [|split].
  - rewrite Hget. reflexivity.
  - intros k v Hk Hv. rewrite Hget, Hk.
    destruct v; try reflexivity. contradiction.
  - intros k v Hk. rewrite Hget.
    assert (Hvis : Dict.get [("visible", VBool true)] k = None).
    { change (Dict.get [("visible", VBool true)] k)
        with (if String.eqb "visible" k then Some (VBool true) else None).
      apply String.eqb_neq in Hk. rewrite String.eqb_sym in Hk.
      now rewrite Hk. }
    rewrite Hvis.
    destruct (Dict.get (config w) k) as [v'|]; [|discriminate].
    destruct v'; simpl; try discriminate;
      intros H; injection H as <-; split; try reflexivity; discriminate.
Qed.

Lemma defaultProps_entries_witness :
  Dict.get (defaultProps (generate_react_props button_widget)) "visible"
  = Some (VBool true)
  /\ Dict.get (defaultProps (generate_react_props button_widget)) "label"
     = Some (VStr "Submit").
Proof.
  pose proof (defaultProps_entries button_widget
                (unique_keys_wf (config button_widget) eq_refl)) as [Hv [Hin _]].
  split; [exact Hv|].
  apply Hin; [reflexivity | discriminate].
Defined.

(** ** Serialization *)

(** Case analysis on the innermost scrutinee of nested matches. *)
Ltac destruct_scrutinee e :=
  lazymatch e with
  | match ?e' with _ => _ end => destruct_scrutinee e'
  | _ => destruct e
  end.

Section RoundTrip.

Variable json_loads : string -> result value.
Variable env : Env.

(** Serializing and deserializing gives the widget back, field for
    field, with the storage handle cleared. *)
Lemma deserialize_serialize (w : Widget) :
  deserialize_widget json_loads env (VDict (serialize_widget w))
  = Ok {| widget_type := widget_type w;
          config := config w;
          position := {| x := x (position w); y := y (position w);
                         width := width (position w);
                         height := height (position w) |};
          widget_id := widget_id w;
          label := label w;
          visible := visible w;
          created_at := created_at w;
          db_id := None |}.
Proof. reflexivity. Qed.

(** Whatever the input, a widget that comes out has no storage handle. *)
Lemma deserialize_db_id (data : value) (w : Widget) :
  deserialize_widget json_loads env data = Ok w -> db_id w = None.
Proof.
  unfold deserialize_widget, bind, as_str, as_int, as_bool, as_dict.
  intros H.
  repeat match type of H with
         | match ?e with _ => _ end = _ => destruct e; try discriminate H
         end.
  injection H as <-. reflexivity.
Qed.

(** Without the key "widget_type" the call raises [KeyError]. *)
Lemma deserialize_missing_type (d : dict value) :
  Dict.get d "widget_type" = None ->
  deserialize_widget json_loads env (VDict d) = Raise (KeyError "widget_type").
Proof.
  intros H. unfold deserialize_widget, subscript. simpl. now rewrite H.
Qed.

(** With the key "widget_type" no [KeyError] is raised, whichever other
    keys are missing. *)
Lemma deserialize_no_other_key_required (d : dict value) (v : value) :
  Dict.get d "widget_type" = Some v ->
  forall k, deserialize_widget json_loads env (VDict d) <> Raise (KeyError k).
Proof.
  intros H k. unfold deserialize_widget, subscript. simpl. rewrite H.
  unfold bind, get_method, as_str, as_int, as_bool, as_dict.
  repeat match goal with
         | |- match ?e with _ => _ end <> _ =>
             destruct_scrutinee e; try discriminate
         end.
Qed.

End RoundTrip.

(** C2, as stated, fails: for a saved widget the round trip loses the
    storage handle, so the result differs from the widget in [db_id]. *)
Lemma roundtrip_db_id_counterexample :
  db_id persisted_button = Some 7
  /\ (exists w', deserialize_widget no_json env0
                   (VDict (serialize_widget persisted_button)) = Ok w'
                 /\ db_id w' = None)
  /\ deserialize_widget no_json env0 (VDict (serialize_widget persisted_button))
     <> Ok persisted_button.
Proof.
  split; [reflexivity|]. split.
  - eexists. split; reflexivity.
  - discriminate.
Qed.

(** C2 (amended): [deserialize_widget (serialize_widget w)] equals [w]
    in the fields [widget_id], [widget_type], [label], [config],
    [position] (x, y, width, height), [visible] and [created_at]; its
    [db_id] is [None], so it is [w] itself exactly when [w] has no
    storage handle. *)
Theorem deserialize_serialize_roundtrip
  (json_loads : string -> result value) (env : Env) (w : Widget) :
  exists w',
    deserialize_widget json_loads env (VDict (serialize_widget w)) = Ok w'
    /\ widget_id w' = widget_id w
    /\ widget_type w' = widget_type w
    /\ label w' = label w
    /\ config w' = config w
    /\ position w' = position w
    /\ visible w' = visible w
    /\ created_at w' = created_at w
    /\ db_id w' = None
    /\ (w' = w <-> db_id w = None).
Proof.
  eexists. split; [apply deserialize_serialize|].
  destruct w as [t c [px py pw ph] i l v ca h]; simpl.
  repeat (split; [reflexivity|]).
  split.
  - intros H. now injection H.
  - intros ->. reflexivity.
Qed.

(** C9: an input object without the key "widget_type" makes
    [deserialize_widget] raise, whatever else it holds; with that key no
    other key is missed; and an input that holds only "widget_type" gives a widget with a fresh identifier, an
    empty label, an empty config, the position (0, 0, 4, 2), [visible]
    set, the current time as creation time and no storage handle. *)
Theorem deserialize_only_widget_type_required
  (json_loads : string -> result value) (env : Env) :
  (forall d : dict value,
      Dict.get d "widget_type" = None ->
      deserialize_widget json_loads env (VDict d)
      = Raise (KeyError "widget_type"))
  /\ (forall (d : dict value) (v : value),
        Dict.get d "widget_type" = Some v ->
        forall k, deserialize_widget json_loads env (VDict d)
                  <> Raise (KeyError k))
  /\ (forall t : string,
        deserialize_widget json_loads env (VDict [("widget_type", VStr t)])
        = Ok {| widget_type := t;
                config := [];
                position := {| x := 0; y := 0; width := 4; height := 2 |};
                widget_id := uuid4 env;
                label := "";
                visible := true;
                created_at := utcnow env;
                db_id := None |}).
Proof.
  split; [|split].
  - apply deserialize_missing_type.
  - apply deserialize_no_other_key_required.
  - reflexivity.
Qed.

Lemma deserialize_only_widget_type_required_witness :
  deserialize_widget no_json env0
    (VDict [("widget_id", VStr "a"); ("label", VStr "b"); ("config", VDict []);
            ("position", VDict []); ("visible", VBool true);
            ("created_at", VStr "c")])
  = Raise (KeyError "widget_type").
Proof.
  apply (proj1 (deserialize_only_widget_type_required no_json env0)).
  reflexivity.
Defined.

(** C10: the serialized form has the seven keys of the contract, none
    of them "db_id", and does not depend on the storage handle; every
    widget that [deserialize_widget] returns has no storage handle, also
    the one read back from a saved widget. *)
Theorem db_id_not_serialized
  (json_loads : string -> result value) (env : Env) :
  (forall w : Widget,
      Dict.keys (serialize_widget w)
      = ["widget_id"; "widget_type"; "label"; "config"; "position";
         "visible"; "created_at"]
      /\ Dict.get (serialize_widget w) "db_id" = None
      /\ forall h : option Z,
           serialize_widget
             {| widget_type := widget_type w; config := config w;
                position := position w; widget_id := widget_id w;
                label := label w; visible := visible w;
                created_at := created_at w; db_id := h |}
           = serialize_widget w)
  /\ (forall (data : value) (w : Widget),
        deserialize_widget json_loads env data = Ok w -> db_id w = None)
  /\ (forall w : Widget,
        exists w', deserialize_widget json_loads env
                     (VDict (serialize_widget w)) = Ok w'
                   /\ db_id w' = None).
Proof.
  split; [|split].
  - intros w. repeat split; reflexivity.
  - apply deserialize_db_id.
  - intros w. eexists. split; [apply deserialize_serialize | reflexivity].
Qed.

Lemma db_id_not_serialized_witness :
  exists w, deserialize_widget no_json env0
              (VDict (serialize_widget persisted_button)) = Ok w
            /\ db_id w = None.
Proof.
  eexists. split; [reflexivity|].
  apply (proj1 (proj2 (db_id_not_serialized no_json env0))
           (VDict (serialize_widget persisted_button))).
  reflexivity.
Defined.

(** ** Layout export *)

(** A loop that appends to a list builds the list of all it appended. *)
Lemma fold_left_append {A B : Type} (f : A -> list B) (l : list A) (init : list B) :
  fold_left (fun acc a => acc +++ f a) l init = init +++ flat_map f l.
Proof.
  revert init; induction l as [|a l IH]; intros init; simpl.
  - now rewrite app_nil_r.
  - now rewrite IH, app_assoc.
Qed.

(** Puts a string built by appending in right-nested form. *)
Ltac str_norm :=
  unfold Str.nl, Str.dq; cbn [firstn unlines Str.join append];
  repeat (rewrite append_assoc; cbn [append]);
  rewrite ?append_nil_r;
  try reflexivity.

Lemma unlines_app (l1 l2 : list string) :
  unlines (l1 +++ l2) = unlines l1 ++ unlines l2.
Proof.
  induction l1 as [|a l1 IH]; simpl; [reflexivity|].
  now rewrite IH, !append_assoc.
Qed.

(** Joining lines of which the last is empty ends every other line with
    a line feed. *)
Lemma join_trailing_empty (lines : list string) :
  Str.join Str.nl (lines +++ [""]) = unlines lines.
Proof.
  induction lines as [|a lines IH]; [reflexivity|].
  change (Str.join Str.nl ((a :: lines) +++ [""]))
    with (match lines +++ [""] with
          | [] => a
          | _ :: _ => a ++ Str.nl ++ Str.join Str.nl (lines +++ [""])
          end).
  rewrite IH. destruct lines; reflexivity.
Qed.

(** Blocks that each end with an empty line, after a first such block:
    the empty lines are the separators before the later blocks, and one
    is left at the end. *)
Lemma blocks_shift {A : Type} (body : A -> list string) (l : list A)
      (pre : list string) :
  (pre +++ [""]) +++ flat_map (fun a => body a +++ [""]) l
  = (pre +++ flat_map (fun a => "" :: body a) l) +++ [""].
Proof.
  revert pre; induction l as [|a l IH]; intros pre; simpl.
  - now rewrite !app_nil_r.
  - specialize (IH (pre +++ "" :: body a)).
    repeat (rewrite <- ?app_assoc, <- ?app_comm_cons in IH; simpl app in IH).
    repeat (rewrite <- ?app_assoc, <- ?app_comm_cons; simpl app).
    exact IH.
Qed.

Lemma concat_blocks (ws : list Widget) :
  unlines (flat_map (fun w => "" :: firstn 4 (css_widget_lines w)) ws)
  = String.concat "" (map (fun w => Str.nl ++ CssSpec.widget_block w) ws).
Proof.
  induction ws as [|w ws IH]; [reflexivity|].
  change (flat_map (fun w => "" :: firstn 4 (css_widget_lines w)) (w :: ws))
    with (("" :: firstn 4 (css_widget_lines w))
          +++ flat_map (fun w => "" :: firstn 4 (css_widget_lines w)) ws).
  rewrite unlines_app, IH.
  assert (Hblock : unlines ("" :: firstn 4 (css_widget_lines w))
                   = Str.nl ++ CssSpec.widget_block w).
  { unfold CssSpec.widget_block, CssSpec.widget_selector, css_widget_lines.
    rewrite <- take_substring.
    generalize (Str.take 8 (widget_id w)), (Str.of_int (x (position w) + 1)),
      (Str.of_int (y (position w) + 1)), (Str.of_int (width (position w))),
      (Str.of_int (height (position w))).
    intros sel cx cy cw ch. str_norm. }
  rewrite Hblock.
  destruct ws as [|w' ws]; simpl.
  - now rewrite append_nil_r.
  - reflexivity.
Qed.

Section ExportFacts.

Variable json_dumps : value -> string.

(** The lines of the CSS export, before they are joined. *)
Lemma css_lines_shape (l : WidgetLayout) :
  export_layout json_dumps l "css"
  = Ok (unlines
          (["/* Layout: " ++ name l ++ " */";
            ".layout-" ++ Str.lower (Str.replace " " "-" (name l)) ++ " {";
            "  display: grid;";
            "  grid-template-columns: repeat(" ++ Str.of_int (columns l)
              ++ ", 1fr);";
            "  row-gap: " ++ Str.of_int (row_height l) ++ "px;";
            "}"]
           +++ flat_map (fun w => "" :: firstn 4 (css_widget_lines w))
                        (widgets l))).
Proof.
  unfold export_layout.
  change (String.eqb "css" "json") with false.
  change (String.eqb "css" "css") with true.
  cbv iota. f_equal.
  rewrite fold_left_append.
  rewrite (flat_map_ext css_widget_lines
             (fun w => firstn 4 (css_widget_lines w) +++ [""]))
    by reflexivity.
  rewrite <- join_trailing_empty, <- blocks_shift.
  reflexivity.
Qed.

(** An unknown format token raises [ValueError] with the token in the
    message. *)
Lemma export_unknown_format (l : WidgetLayout) (fmt : string) :
  fmt <> "json" -> fmt <> "css" -> fmt <> "html" ->
  export_layout json_dumps l fmt
  = Raise (ValueError ("Unsupported export format: " ++ fmt
                         ++ ". Use json, css, or html.")).
Proof.
  intros Hj Hc Hh. unfold export_layout.
  apply String.eqb_neq in Hj, Hc, Hh. now rewrite Hj, Hc, Hh.
Qed.

End ExportFacts.

(** C8: the CSS export is the sheet of the specification: one block for
    the layout, selected by "layout-" and the name with spaces replaced by
    hyphens and lower-cased, that declares [display: grid],
    [grid-template-columns: repeat(columns, 1fr)] and
    [row-gap: row_height px], and one block per widget, selected by the
    first 8 characters of its identifier, that declares
    [grid-column: x+1 / span width] and [grid-row: y+1 / span height]. *)
Theorem export_css_sheet (json_dumps : value -> string) (l : WidgetLayout) :
  export_layout json_dumps l "css" = Ok (CssSpec.sheet l).
Proof.
  rewrite css_lines_shape. f_equal.
  rewrite unlines_app, concat_blocks.
  unfold CssSpec.sheet, CssSpec.layout_block, CssSpec.layout_selector.
  rewrite lower_replace_comm.
  generalize (String.concat ""
                (map (fun w => Str.nl ++ CssSpec.widget_block w) (widgets l))).
  generalize (Str.replace " " "-" (Str.lower (name l))),
    (Str.of_int (columns l)), (Str.of_int (row_height l)), (name l).
  intros sel cols rh nm blocks. str_norm.
Qed.

(** C6: a format token other than "json", "css" and "html" makes
    [export_layout] raise the unsupported-format error (a [ValueError]
    in the source) whose message contains the token; each of the three
    formats returns a string for a layout without widgets. *)
Theorem export_layout_formats (json_dumps : value -> string) :
  (forall (l : WidgetLayout) (fmt : string),
      fmt <> "json" -> fmt <> "css" -> fmt <> "html" ->
      exists msg,
        export_layout json_dumps l fmt = Raise (ValueError msg)
        /\ Str.contains fmt msg = true)
  /\ (forall (l : WidgetLayout) (fmt : string),
        widgets l = [] ->
        fmt = "json" \/ fmt = "css" \/ fmt = "html" ->
        exists s, export_layout json_dumps l fmt = Ok s).
Proof.
  split.
  - intros l fmt Hj Hc Hh. eexists. split.
    + now apply export_unknown_format.
    + apply contains_middle.
  - intros l fmt Hw [-> | [-> | ->]]; unfold export_layout; rewrite Hw;
      eexists; reflexivity.
Qed.

Lemma export_layout_formats_witness :
  (exists msg,
      export_layout (fun _ => "{}") empty_dashboard "xml"
      = Raise (ValueError msg)
      /\ Str.contains "xml" msg = true)
  /\ (exists s, export_layout (fun _ => "{}") empty_dashboard "html" = Ok s).
Proof.
  split.
  - apply (proj1 (export_layout_formats (fun _ => "{}")) empty_dashboard "xml");
      discriminate.
  - apply (proj2 (export_layout_formats (fun _ => "{}")) empty_dashboard "html");
      [reflexivity | right; right; reflexivity].
Defined.

Example export_css_dashboard :
  export_layout (fun _ => "{}")
    {| name := "My Dashboard"; widgets := [button_widget]; columns := 12;
       row_height := 60; layout_id := None;
       layout_created_at := "2024-01-01T00:00:00" |} "css"
  = Ok ("/* Layout: My Dashboard */" ++ Str.nl
        ++ ".layout-my-dashboard {" ++ Str.nl
        ++ "  display: grid;" ++ Str.nl
        ++ "  grid-template-columns: repeat(12, 1fr);" ++ Str.nl
        ++ "  row-gap: 60px;" ++ Str.nl
        ++ "}" ++ Str.nl
        ++ Str.nl
        ++ ".widget-3f2b8c1e {" ++ Str.nl
        ++ "  grid-column: 1 / span 3;" ++ Str.nl
        ++ "  grid-row: 1 / span 1;" ++ Str.nl
        ++ "}" ++ Str.nl).
Proof. reflexivity. Qed.

(* ================================================================== *)
(** * Further properties *)
(* ================================================================== *)

(** ** Validation *)

Lemma has_kind_or_bool (v : value) (e : expected) :
  isinstance v e = has_kind v e || (pytype_eqb (type_of v) TBool && admits_int e).
Proof.
  destruct e as [t|ts]; simpl.
  - unfold isinstance1, issubclass. destruct v, t; reflexivity.
  - induction ts as [|t ts IH]; simpl.
    + now rewrite andb_false_r.
    + rewrite IH. unfold isinstance1, issubclass.
      destruct v, t; simpl; try reflexivity;
        destruct (existsb _ ts); simpl; try reflexivity;
        now rewrite ?orb_true_r.
Qed.

Lemma field_errors_nil_iff (cfg : dict value) (schema : dict expected) :
  flat_map (field_errors cfg) schema = [] <-> accepts cfg schema = true.
Proof.
  unfold accepts. induction schema as [|[key e] schema IH]; simpl.
  - tauto.
  - rewrite andb_true_iff, <- IH. split.
    + intros H. apply app_eq_nil in H as [H1 H2]. split; [|assumption].
      destruct (Dict.get cfg key) as [v|]; [|reflexivity].
      destruct e; destruct (isinstance v _); simpl in *;
        try reflexivity; discriminate.
    + intros [H1 H2]. rewrite H2, app_nil_r.
      destruct (Dict.get cfg key) as [v|]; [|reflexivity].
      destruct e; rewrite H1; reflexivity.
Qed.

(** An unknown type never validates to the empty list. *)
Lemma validate_config_nil_type (w : Widget) :
  validate_config w = [] -> is_widget_type (widget_type w) = true.
Proof.
  unfold validate_config.
  destruct (is_widget_type (widget_type w)); [reflexivity | discriminate].
Qed.

Lemma validate_config_nil_inv (w : Widget) :
  validate_config w = [] ->
  is_widget_type (widget_type w) = true
  /\ accepts (config w) (schema_of w) = true
  /\ 0 <= x (position w) <= 12
  /\ 1 <= width (position w) <= 12
  /\ x (position w) + width (position w) <= 12
  /\ height (position w) >= 1
  /\ widget_id w <> "".
Proof.
  intros H. pose proof (validate_config_nil_type w H) as Ht.
  rewrite (validate_config_known w Ht) in H.
  repeat (apply app_eq_nil in H as [? H]).
  split; [assumption|]. split; [now apply field_errors_nil_iff|].
  repeat match goal with
         | Hc : (if ?c then _ else _) = [] |- _ =>
             destruct c eqn:?; [discriminate Hc | clear Hc]
         end.
  repeat match goal with
         | Hc : negb _ = false |- _ => apply negb_false_iff in Hc
         | Hc : _ && _ = true |- _ => apply andb_true_iff in Hc as [? ?]
         end.
  destruct (widget_id w); [discriminate|].
  repeat split; try lia; discriminate.
Qed.

(** X1: [validate_config] returns the empty list exactly when the type
    is one of the enumerated types, every config field named by the
    schema passes [isinstance], the position satisfies the four bounds
    and the identifier is not empty. *)
Theorem validate_config_nil_iff (w : Widget) :
  validate_config w = [] <->
  is_widget_type (widget_type w) = true
  /\ accepts (config w) (schema_of w) = true
  /\ 0 <= x (position w) <= 12
  /\ 1 <= width (position w) <= 12
  /\ x (position w) + width (position w) <= 12
  /\ height (position w) >= 1
  /\ widget_id w <> "".
Proof.
  split; [apply validate_config_nil_inv|].
  intros (Ht & Ha & Hx & Hw & Hf & Hh & Hid).
  rewrite (validate_config_known w Ht).
  apply field_errors_nil_iff in Ha. rewrite Ha.
  replace ((0 <=? x (position w)) && (x (position w) <=? 12)) with true
    by (symmetry; apply andb_true_iff; split; apply Z.leb_le; lia).
  replace ((1 <=? width (position w)) && (width (position w) <=? 12)) with true
    by (symmetry; apply andb_true_iff; split; apply Z.leb_le; lia).
  replace (x (position w) + width (position w) >? 12) with false
    by (symmetry; rewrite Z.gtb_ltb; apply Z.ltb_ge; lia).
  replace (height (position w) <? 1) with false
    by (symmetry; apply Z.ltb_ge; lia).
  destruct (widget_id w); [contradiction | reflexivity].
Qed.

(** X2: the range check lets [x = 12] through, but a widget that
    validates has [0 <= x <= 11] and [1 <= width <= 12 - x]: with
    [x = 12] every width of at least 1 overflows. *)
Theorem validate_config_nil_columns (w : Widget) :
  validate_config w = [] ->
  0 <= x (position w) <= 11 /\ 1 <= width (position w) <= 12 - x (position w).
Proof.
  intros H. apply validate_config_nil_inv in H as (_ & _ & Hx & Hw & Hf & _).
  lia.
Qed.

Lemma validate_config_nil_columns_witness :
  0 <= x (position button_widget) <= 11
  /\ 1 <= width (position button_widget) <= 12 - x (position button_widget).
Proof.
  apply (validate_config_nil_columns button_widget). reflexivity.
Defined.

(** X3: the field check of [validate_config] reports nothing for a
    schema field exactly when the config lacks the key, or holds a value
    of the expected class (one of the expected classes), or holds a
    [bool] where [int] is expected. *)
Theorem field_errors_nil_cases (cfg : dict value) (key : string) (e : expected) :
  field_errors cfg (key, e) = [] <->
  match Dict.get cfg key with
  | None => True
  | Some v => has_kind v e = true
              \/ (type_of v = TBool /\ admits_int e = true)
  end.
Proof.
  unfold field_errors. destruct (Dict.get cfg key) as [v|]; [|tauto].
  assert (Hb : pytype_eqb (type_of v) TBool = true <-> type_of v = TBool)
    by (destruct v; simpl; split; intros; congruence).
  rewrite <- Hb, <- andb_true_iff, <- orb_true_iff, <- has_kind_or_bool.
  destruct e; destruct (isinstance v _); simpl;
    split; intros H; try reflexivity; discriminate H.
Qed.

Lemma get_in {A : Type} (d : dict A) (k : string) (a : A) :
  In (k, a) d -> Dict.get d k <> None.
Proof.
  induction d as [|[k' a'] d IH]; simpl; [tauto|].
  intros [H|H].
  - injection H as -> ->. now rewrite String.eqb_refl.
  - destruct (String.eqb k' k); [discriminate | now apply IH].
Qed.

(** The field check reads the config at the keys of the schema only. *)
Lemma field_errors_ext (cfg cfg' : dict value) (schema : dict expected) :
  (forall k e, In (k, e) schema -> Dict.get cfg' k = Dict.get cfg k) ->
  flat_map (field_errors cfg') schema = flat_map (field_errors cfg) schema.
Proof.
  induction schema as [|[key e] schema IH]; intros H; simpl; [reflexivity|].
  rewrite IH by (intros k e' Hin; apply (H k e'); now right).
  rewrite (H key e) by now left. reflexivity.
Qed.

Lemma validate_config_ext (w : Widget) (cfg' : dict value) :
  (forall k e, In (k, e) (schema_of w) ->
               Dict.get cfg' k = Dict.get (config w) k) ->
  validate_config (set_config w cfg') = validate_config w.
Proof.
  intros H. unfold validate_config, set_config; simpl.
  destruct (is_widget_type (widget_type w)); simpl; [|reflexivity].
  fold (schema_of w). now rewrite (field_errors_ext (config w) cfg').
Qed.

(** X4: a config key that the schema of the type does not name is not
    looked at: storing any value under it leaves the errors as they
    are. *)
Theorem validate_config_unknown_key (w : Widget) (k : string) (v : value) :
  Dict.get (schema_of w) k = None ->
  validate_config (set_config w (Dict.set (config w) k v)) = validate_config w.
Proof.
  intros Hk. apply validate_config_ext. intros k' e Hin.
  apply DictFacts.get_set_other. intros ->.
  now apply (get_in _ _ _ Hin).
Qed.

Lemma validate_config_unknown_key_witness :
  validate_config
    (set_config button_widget
       (Dict.set (config button_widget) "onClick" (VInt 0)))
  = validate_config button_widget.
Proof.
  apply (validate_config_unknown_key button_widget "onClick" (VInt 0)).
  reflexivity.
Defined.

(** X5: for [accordion], [navbar], [sidebar] and [form] the config is
    not looked at: the errors are those of the position and the
    identifier, whatever the config holds. *)
Theorem validate_config_schemaless (w : Widget) (cfg' : dict value) :
  In (widget_type w) schemaless_types ->
  validate_config (set_config w cfg') = validate_config w
  /\ (validate_config w = [] <->
      0 <= x (position w) <= 12
      /\ 1 <= width (position w) <= 12
      /\ x (position w) + width (position w) <= 12
      /\ height (position w) >= 1
      /\ widget_id w <> "").
Proof.
  intros Hin.
  assert (Hs : schema_of w = [] /\ is_widget_type (widget_type w) = true).
  { unfold schema_of. simpl in Hin.
    destruct Hin as [<-|[<-|[<-|[<-|[]]]]]; split; reflexivity. }
  destruct Hs as [Hs Ht]. split.
  - apply validate_config_ext. rewrite Hs. intros k e [].
  - split.
    + intros H. apply validate_config_nil_inv in H. tauto.
    + intros (Hx & Hw & Hf & Hh & Hid).
      rewrite (validate_config_known w Ht), Hs. simpl flat_map.
      replace ((0 <=? x (position w)) && (x (position w) <=? 12)) with true
        by (symmetry; apply andb_true_iff; split; apply Z.leb_le; lia).
      replace ((1 <=? width (position w)) && (width (position w) <=? 12))
        with true
        by (symmetry; apply andb_true_iff; split; apply Z.leb_le; lia).
      replace (x (position w) + width (position w) >? 12) with false
        by (symmetry; rewrite Z.gtb_ltb; apply Z.ltb_ge; lia).
      replace (height (position w) <? 1) with false
        by (symmetry; apply Z.ltb_ge; lia).
      destruct (widget_id w); [contradiction | reflexivity].
Qed.

Lemma validate_config_schemaless_witness :
  validate_config (set_config sidebar_widget [("items", VStr "a")])
  = validate_config sidebar_widget.
Proof.
  apply (proj1 (validate_config_schemaless sidebar_widget
                  [("items", VStr "a")]
                  (or_intror (or_intror (or_introl eq_refl))))).
Defined.

(** Every message of the field check starts with a quote. *)
Lemma field_errors_quote (cfg : dict value) (schema : dict expected) (m : string) :
  In m (flat_map (field_errors cfg) schema) -> Str.startswith "'" m = true.
Proof.
  induction schema as [|[key e] schema IH]; simpl; [tauto|].
  intros H. apply in_app_or in H as [H|H]; [|now apply IH].
  unfold field_errors in H.
  destruct (Dict.get cfg key) as [v|]; [|destruct H].
  destruct e; destruct (negb _); simpl in H;
    try contradiction; destruct H as [<-|[]]; reflexivity.
Qed.

(** The messages of a widget of a known type, one check after the
    other. *)
Lemma validate_config_in (w : Widget) (m : string) :
  is_widget_type (widget_type w) = true ->
  In m (validate_config w) ->
  Str.startswith "'" m = true
  \/ Str.startswith "Posi" m = true
  \/ Str.startswith "Widt" m = true
  \/ (m = overflow_message (position w)
      /\ x (position w) + width (position w) > 12)
  \/ Str.startswith "Heig" m = true
  \/ (m = "widget_id is required" /\ widget_id w = "").
Proof.
  intros Ht H. rewrite (validate_config_known w Ht) in H.
  apply in_app_or in H as [H|H];
    [left; now apply (field_errors_quote _ _ _ H)|].
  apply in_app_or in H as [H|H].
  { destruct (negb _); [|contradiction]. destruct H as [<-|[]].
    right; left; reflexivity. }
  apply in_app_or in H as [H|H].
  { destruct (negb _); [|contradiction]. destruct H as [<-|[]].
    right; right; left; reflexivity. }
  apply in_app_or in H as [H|H].
  { destruct (_ >? 12) eqn:E; [|contradiction]. destruct H as [<-|[]].
    right; right; right; left. split; [reflexivity|].
    rewrite Z.gtb_ltb in E. apply Z.ltb_lt in E. lia. }
  apply in_app_or in H as [H|H].
  { destruct (_ <? 1); [|contradiction]. destruct H as [<-|[]].
    right; right; right; right; left; reflexivity. }
  destruct (widget_id w); simpl in H; [|contradiction].
  destruct H as [<-|[]].
  right; right; right; right; right. split; reflexivity.
Qed.

(** X6: for a widget of a known type, the overflow message is among the
    errors exactly when [x + width > 12], and the missing-identifier
    message exactly when the identifier is empty; the other checks do not
    hide them and do not produce them. *)
Theorem validate_config_overflow_iff (w : Widget) :
  is_widget_type (widget_type w) = true ->
  (In (overflow_message (position w)) (validate_config w)
   <-> x (position w) + width (position w) > 12)
  /\ (In "widget_id is required" (validate_config w) <-> widget_id w = "").
Proof.
  intros Ht. split; split.
  - intros H. apply (validate_config_in w _ Ht) in H.
    destruct H as [H|[H|[H|[[_ H]|[H|[H _]]]]]];
      try assumption; discriminate H.
  - intros H. rewrite (validate_config_known w Ht).
    replace (x (position w) + width (position w) >? 12) with true
      by (symmetry; rewrite Z.gtb_ltb; apply Z.ltb_lt; lia).
    do 3 (apply in_or_app; right). apply in_or_app; left. now left.
  - intros H. apply (validate_config_in w _ Ht) in H.
    destruct H as [H|[H|[H|[[H _]|[H|[_ H]]]]]];
      try assumption; discriminate H.
  - intros H. rewrite (validate_config_known w Ht), H.
    do 5 (apply in_or_app; right). now left.
Qed.

Lemma validate_config_overflow_iff_witness :
  In (overflow_message (position overflow_widget))
     (validate_config overflow_widget).
Proof.
  apply (proj1 (validate_config_overflow_iff overflow_widget eq_refl)).
  simpl. lia.
Defined.

(** ** React prop generation *)

Module DictMore.
Section More.
Context {A : Type}.
Implicit Types (d : dict A) (k : string) (v : A).

Lemma get_mem d k : Dict.mem d k = existsb (String.eqb k) (Dict.keys d).
Proof.
  unfold Dict.mem. induction d as [|[k' v'] d IH]; simpl; [reflexivity|].
  rewrite (String.eqb_sym k k').
  destruct (String.eqb k' k); simpl; [reflexivity | assumption].
Qed.

Lemma get_set d k v k' :
  Dict.get (Dict.set d k v) k'
  = if String.eqb k k' then Some v else Dict.get d k'.
Proof.
  destruct (String.eqb k k') eqn:E.
  - apply String.eqb_eq in E; subst. apply DictFacts.get_set_same.
  - apply String.eqb_neq in E. now apply DictFacts.get_set_other.
Qed.

Lemma keys_set d k v :
  Dict.keys (Dict.set d k v)
  = if Dict.mem d k then Dict.keys d else Dict.keys d +++ [k].
Proof.
  unfold Dict.mem, Dict.keys.
  induction d as [|[k' v'] d IH]; simpl; [reflexivity|].
  destruct (String.eqb k' k) eqn:E; simpl; [reflexivity|].
  rewrite IH. now destruct (Dict.get d k).
Qed.

Lemma mem_in d k : Dict.mem d k = false -> ~ In k (Dict.keys d).
Proof.
  rewrite get_mem. intros H Hin.
  assert (Ht : existsb (String.eqb k) (Dict.keys d) = true)
    by (apply existsb_exists; exists k; split;
        [assumption | apply String.eqb_refl]).
  congruence.
Qed.

(** Storing a key keeps the keys distinct. *)
Lemma set_wf d k v : Dict.wf d -> Dict.wf (Dict.set d k v).
Proof.
  unfold Dict.wf. rewrite keys_set.
  destruct (Dict.mem d k) eqn:E; [tauto|].
  intros H. apply NoDup_app; [assumption | repeat constructor; simpl; tauto |].
  intros a Ha [Heq|[]]. subst a. now apply (mem_in d k E).
Qed.

Lemma update_wf d (items : list (string * A)) :
  Dict.wf d -> Dict.wf (Dict.update d items).
Proof.
  unfold Dict.update. revert d.
  induction items as [|[k v] items IH]; intros d H; simpl; [assumption|].
  apply IH, set_wf, H.
Qed.

(** Storing items with distinct keys: a key holds its item, or what it
    held before. *)
Lemma get_update d (items : list (string * A)) k :
  Dict.wf items ->
  Dict.get (Dict.update d items) k
  = match Dict.get items k with
    | Some v => Some v
    | None => Dict.get d k
    end.
Proof.
  unfold Dict.wf, Dict.keys, Dict.update. revert d.
  induction items as [|[k0 v0] items IH]; intros d H; simpl; [reflexivity|].
  inversion H as [|? ? Hnotin Hrest]; subst.
  rewrite (IH _ Hrest), get_set.
  destruct (String.eqb k0 k) eqn:E; [|reflexivity].
  apply String.eqb_eq in E; subst.
  now rewrite (get_absent items k Hnotin).
Qed.

End More.
End DictMore.

Lemma type_map_no_default (t : string) :
  Dict.get type_map t <> Some "Widget".
Proof.
  unfold type_map. simpl.
  repeat match goal with
         | |- (if ?c then _ else _) <> _ => destruct c; [discriminate|]
         end.
  discriminate.
Qed.

(** X7: the component name is the generic "Widget" exactly for the
    types without a schema, known or not: the table of component names
    and the table of schemas have the same keys. *)
Theorem componentName_generic_iff (w : Widget) :
  componentName (generate_react_props w) = "Widget"
  <-> Dict.get _CONFIG_SCHEMAS (widget_type w) = None.
Proof.
  unfold generate_react_props, componentName, Dict.get_default.
  assert (Hm : Dict.mem type_map (widget_type w)
               = Dict.mem _CONFIG_SCHEMAS (widget_type w))
    by (rewrite !DictMore.get_mem; reflexivity).
  unfold Dict.mem in Hm.
  pose proof (type_map_no_default (widget_type w)) as Hn.
  destruct (Dict.get type_map (widget_type w)) as [c|];
    destruct (Dict.get _CONFIG_SCHEMAS (widget_type w)); try discriminate Hm.
  - split; [intros ->; contradiction | discriminate].
  - tauto.
Qed.

(** X8: with a config that has no key twice, [props] holds every config
    entry under its key, but for the keys "visible", "id" and
    "aria-label"; "aria-label" holds the label when the label is not
    empty, and the config's entry otherwise. *)
Theorem props_pass_through (w : Widget) :
  Dict.wf (config w) ->
  (forall k, k <> "visible" -> k <> "id" -> k <> "aria-label" ->
             Dict.get (props (generate_react_props w)) k
             = Dict.get (config w) k)
  /\ Dict.get (props (generate_react_props w)) "aria-label"
     = if Str.truthy (label w) then Some (VStr (label w))
       else Dict.get (config w) "aria-label".
Proof.
  intros Hwf. unfold generate_react_props; simpl props.
  change (config w +++ [("visible", VBool (visible w)); ("id", VStr (widget_id w))])
    with (config w +++ [("visible", VBool (visible w))] +++ [("id", VStr (widget_id w))]).
  rewrite app_assoc, !DictFacts.update_snoc.
  assert (Hcfg : forall k, Dict.get (Dict.update [] (config w)) k
                           = Dict.get (config w) k).
  { intros k. rewrite (DictMore.get_update [] (config w) k Hwf).
    now destruct (Dict.get (config w) k). }
  split.
  - intros k Hv Hi Ha.
    destruct (Str.truthy (label w));
      rewrite ?(DictFacts.get_set_other _ "aria-label") by congruence;
      rewrite !DictFacts.get_set_other by congruence; apply Hcfg.
  - destruct (Str.truthy (label w)); [apply DictFacts.get_set_same|].
    rewrite !DictFacts.get_set_other by discriminate. apply Hcfg.
Qed.

Lemma props_pass_through_witness :
  Dict.get (props (generate_react_props button_widget)) "variant"
  = Dict.get (config button_widget) "variant".
Proof.
  apply (proj1 (props_pass_through button_widget
                  (unique_keys_wf (config button_widget) eq_refl)));
    discriminate.
Defined.

Lemma defaults_loop_not_none (cfg acc : dict value) :
  (forall k, Dict.get acc k <> Some VNone) ->
  forall k, Dict.get (defaults_loop cfg acc) k <> Some VNone.
Proof.
  unfold defaults_loop. revert acc.
  induction cfg as [|[k0 v0] cfg IH]; intros acc Hacc; simpl; [assumption|].
  apply IH. intros k.
  destruct v0; try apply Hacc; rewrite DictMore.get_set;
    (destruct (String.eqb k0 k); [discriminate | apply Hacc]).
Qed.

(** X9: [defaultProps] never holds [None], whatever the config holds:
    a config entry that is [None] leaves the key out, or leaves "visible"
    at [True]. *)
Theorem defaultProps_no_none (w : Widget) (k : string) :
  Dict.get (defaultProps (generate_react_props w)) k <> Some VNone.
Proof.
  apply (defaults_loop_not_none (config w) [("visible", VBool true)]).
  intros k'. cbn [Dict.get]. destruct (String.eqb "visible" k'); discriminate.
Qed.

(** The dictionaries that [generate_react_props] builds have no key
    twice, whatever the config is. *)
Lemma generate_react_props_wf (w : Widget) :
  Dict.wf (props (generate_react_props w))
  /\ Dict.wf (defaultProps (generate_react_props w)).
Proof.
  split.
  - unfold generate_react_props; simpl props.
    assert (H : Dict.wf (Dict.update []
                           (config w +++ [("visible", VBool (visible w));
                                          ("id", VStr (widget_id w))])))
      by (apply DictMore.update_wf; constructor).
    destruct (Str.truthy (label w)); [now apply DictMore.set_wf | assumption].
  - unfold generate_react_props; simpl defaultProps.
    assert (H : Dict.wf [("visible", VBool true)])
      by (apply unique_keys_wf; reflexivity).
    revert H. generalize [("visible", VBool true)].
    induction (config w) as [|[k0 v0] cfg IH]; intros acc H; simpl;
      [assumption|].
    apply IH. destruct v0; try assumption; now apply DictMore.set_wf.
Qed.

Lemma get_map_values {A B : Type} (f : A -> B) (d : dict A) (k : string) :
  Dict.get (map (fun kv => (fst kv, f (snd kv))) d) k
  = option_map f (Dict.get d k).
Proof.
  induction d as [|[k' a] d IH]; simpl; [reflexivity|].
  now destruct (String.eqb k' k).
Qed.

Lemma fold_set_update {A B : Type} (f : A -> B) (d : dict A) (init : dict B) :
  fold_left (fun acc kv => Dict.set acc (fst kv) (f (snd kv))) d init
  = Dict.update init (map (fun kv => (fst kv, f (snd kv))) d).
Proof.
  unfold Dict.update. revert init.
  induction d as [|[k a] d IH]; intros init; simpl; [reflexivity | apply IH].
Qed.

(** The schema of a widget is one of the schemas of the table, or the
    empty schema. *)
Lemma schema_of_table (w : Widget) :
  In (schema_of w) ([] :: map snd _CONFIG_SCHEMAS).
Proof.
  unfold schema_of, Dict.get_default.
  generalize _CONFIG_SCHEMAS as table. intros table.
  induction table as [|[t s] table IH]; simpl; [now left|].
  destruct (String.eqb t (widget_type w)); [right; now left|].
  destruct IH as [IH|IH]; [now left | right; now right].
Qed.

(** No schema has a key twice, and none names "id" or "visible". *)
Lemma schema_of_keys (w : Widget) :
  Dict.wf (schema_of w)
  /\ Dict.get (schema_of w) "id" = None
  /\ Dict.get (schema_of w) "visible" = None.
Proof.
  assert (H : forallb (fun s => unique_keys s
                                && negb (Dict.mem s "id")
                                && negb (Dict.mem s "visible"))
                      ([] :: map snd _CONFIG_SCHEMAS) = true) by reflexivity.
  rewrite forallb_forall in H. specialize (H _ (schema_of_table w)).
  apply andb_true_iff in H as [H Hv]. apply andb_true_iff in H as [Hu Hi].
  apply negb_true_iff in Hi, Hv.
  split; [now apply unique_keys_wf|].
  split; now apply DictFacts.get_not_mem.
Qed.

(** X10: [propTypes] declares "id" as a string and "visible" as a
    bool, declares every field of the schema with the descriptor of its
    class or classes, and declares nothing else; the config plays no
    part. *)
Theorem propTypes_entries (w : Widget) :
  Dict.get (propTypes (generate_react_props w)) "id" = Some "PropTypes.string"
  /\ Dict.get (propTypes (generate_react_props w)) "visible"
     = Some "PropTypes.bool"
  /\ (forall k, k <> "id" -> k <> "visible" ->
                Dict.get (propTypes (generate_react_props w)) k
                = option_map prop_type_string (Dict.get (schema_of w) k))
  /\ (forall cfg,
        propTypes (generate_react_props (set_config w cfg))
        = propTypes (generate_react_props w)).
Proof.
  destruct (schema_of_keys w) as (Hwf & Hid & Hvis).
  assert (Hget : forall k,
             Dict.get (propTypes (generate_react_props w)) k
             = match option_map prop_type_string (Dict.get (schema_of w) k) with
               | Some v => Some v
               | None => Dict.get [("id", "PropTypes.string");
                                   ("visible", "PropTypes.bool")] k
               end).
  { intros k. unfold generate_react_props; simpl propTypes.
    fold (schema_of w). rewrite fold_set_update, DictMore.get_update.
    - now rewrite get_map_values.
    - unfold Dict.wf, Dict.keys in *. now rewrite map_map. }
  repeat split.
  - now rewrite Hget, Hid.
  - now rewrite Hget, Hvis.
  - intros k Hi Hv. rewrite Hget.
    destruct (Dict.get (schema_of w) k); [reflexivity|].
    cbn [option_map Dict.get].
    apply String.eqb_neq in Hi, Hv.
    rewrite String.eqb_sym in Hi. rewrite String.eqb_sym in Hv.
    now rewrite Hi, Hv.
Qed.

(** ** Serialization *)

Section DeserializeFacts.

Variable json_loads : string -> result value.

(** X11: given a string, [deserialize_widget] parses it once and goes
    on with the parsed object; a text that parses to a string is not
    parsed again and raises [AttributeError]; what the parser raises is
    raised. *)
Theorem deserialize_json_string (env : Env) (s : string) :
  (forall v, json_loads s = Ok v ->
             deserialize_widget json_loads env (VStr s)
             = match v with
               | VStr _ => Raise (AttributeError "get")
               | _ => deserialize_widget json_loads env v
               end)
  /\ (forall e, json_loads s = Raise e ->
                deserialize_widget json_loads env (VStr s) = Raise e).
Proof.
  split; intros ? H; unfold deserialize_widget; rewrite H;
    [destruct v|]; reflexivity.
Qed.

(** X12: an input that is no object and no string ([None], a bool, a
    number, a list) raises [AttributeError]; so does an object with a
    "widget_type" whose "position" is no object. *)
Theorem deserialize_not_an_object (env : Env) :
  (forall data,
      match data with
      | VStr _ | VDict _ => True
      | _ => deserialize_widget json_loads env data
             = Raise (AttributeError "get")
      end)
  /\ (forall d t p,
        Dict.get d "widget_type" = Some t ->
        Dict.get d "position" = Some p ->
        type_of p <> TDict ->
        deserialize_widget json_loads env (VDict d)
        = Raise (AttributeError "get")).
Proof.
  split.
  - intros []; exact I || reflexivity.
  - intros d t p Ht Hp Hnd.
    unfold deserialize_widget, subscript, Dict.get_default. simpl.
    rewrite Ht, Hp. simpl.
    destruct p; try reflexivity. now contradiction Hnd.
Qed.

(** X13: a widget that comes out of [deserialize_widget] is read back
    unchanged from its own serialized form, under any clock and any
    fresh identifier. *)
Theorem deserialize_fixpoint (env env' : Env) (data : value) (w : Widget) :
  deserialize_widget json_loads env data = Ok w ->
  deserialize_widget json_loads env' (VDict (serialize_widget w)) = Ok w.
Proof.
  intros H. rewrite deserialize_serialize.
  rewrite <- (deserialize_db_id json_loads env data w H).
  now destruct w as [? ? [] ? ? ? ? ?].
Qed.

(** X14: when the input has the keys "widget_id" and "created_at", the
    result depends neither on the fresh identifier nor on the clock. *)
Theorem deserialize_env_unused (env env' : Env) (d : dict value) :
  Dict.mem d "widget_id" = true ->
  Dict.mem d "created_at" = true ->
  deserialize_widget json_loads env (VDict d)
  = deserialize_widget json_loads env' (VDict d).
Proof.
  unfold Dict.mem, deserialize_widget, Dict.get_default. simpl.
  destruct (Dict.get d "widget_id"); [|discriminate].
  destruct (Dict.get d "created_at"); [|discriminate].
  reflexivity.
Qed.

End DeserializeFacts.

Lemma deserialize_json_string_witness :
  deserialize_widget loads_empty_object env0 (VStr "{}")
  = deserialize_widget loads_empty_object env0 (VDict []).
Proof.
  apply (proj1 (deserialize_json_string loads_empty_object env0 "{}")
           (VDict [])).
  reflexivity.
Defined.

Lemma deserialize_not_an_object_witness :
  deserialize_widget no_json env0
    (VDict [("widget_type", VStr "button"); ("position", VNone)])
  = Raise (AttributeError "get").
Proof.
  apply (proj2 (deserialize_not_an_object no_json env0)
           [("widget_type", VStr "button"); ("position", VNone)]
           (VStr "button") VNone);
    [reflexivity | reflexivity | discriminate].
Defined.

Lemma deserialize_fixpoint_witness :
  deserialize_widget no_json {| uuid4 := ""; utcnow := "" |}
    (VDict (serialize_widget
              {| widget_type := "button"; config := [];
                 position := {| x := 0; y := 0; width := 4; height := 2 |};
                 widget_id := uuid4 env0; label := ""; visible := true;
                 created_at := utcnow env0; db_id := None |}))
  = Ok {| widget_type := "button"; config := [];
          position := {| x := 0; y := 0; width := 4; height := 2 |};
          widget_id := uuid4 env0; label := ""; visible := true;
          created_at := utcnow env0; db_id := None |}.
Proof.
  apply (deserialize_fixpoint no_json env0 {| uuid4 := ""; utcnow := "" |}
           (VDict [("widget_type", VStr "button")])).
  reflexivity.
Defined.

Lemma deserialize_env_unused_witness :
  deserialize_widget no_json env0 (VDict (serialize_widget button_widget))
  = deserialize_widget no_json {| uuid4 := ""; utcnow := "" |}
      (VDict (serialize_widget button_widget)).
Proof.
  apply (deserialize_env_unused no_json env0 {| uuid4 := ""; utcnow := "" |}
           (serialize_widget button_widget));
    reflexivity.
Defined.

(** ** Layout export *)

(** Joining lines: every line but the last is followed by a line feed. *)
Lemma join_snoc (lines : list string) (last : string) :
  Str.join Str.nl (lines +++ [last]) = unlines lines ++ last.
Proof.
  induction lines as [|a lines IH]; [reflexivity|].
  change (Str.join Str.nl ((a :: lines) +++ [last]))
    with (match lines +++ [last] with
          | [] => a
          | _ :: _ => a ++ Str.nl ++ Str.join Str.nl (lines +++ [last])
          end).
  rewrite IH. destruct lines; cbn [app unlines];
    rewrite ?append_assoc; reflexivity.
Qed.

Lemma unlines_rows {A : Type} (row : A -> string) (l : list A) :
  unlines (flat_map (fun a => [row a]) l)
  = String.concat "" (map (fun a => row a ++ Str.nl) l).
Proof.
  induction l as [|a l IH]; [reflexivity|].
  simpl flat_map. simpl unlines. rewrite IH.
  destruct l as [|b l]; simpl.
  - rewrite ?append_nil_r; reflexivity.
  - rewrite ?append_assoc; reflexivity.
Qed.

Lemma concat_snoc (parts : list string) (last : string) :
  String.concat "" (parts +++ [last]) = String.concat "" parts ++ last.
Proof.
  induction parts as [|a parts IH]; [reflexivity|].
  change (String.concat "" ((a :: parts) +++ [last]))
    with (match parts +++ [last] with
          | [] => a
          | _ :: _ => a ++ "" ++ String.concat "" (parts +++ [last])
          end).
  rewrite IH. destruct parts; cbn [app String.concat];
    rewrite ?append_assoc; reflexivity.
Qed.

Section ExportMore.

Variable json_dumps : value -> string.

(** X15: the HTML export is a comment that names the layout, a
    container [div] that carries the column count, one row per widget in
    the order of the layout, and the closing tag; lines are separated by
    line feeds and the last line has none. *)
Theorem export_html_rows (l : WidgetLayout) :
  export_layout json_dumps l "html"
  = Ok ("<!-- Layout: " ++ name l ++ " -->" ++ Str.nl
        ++ "<div class=" ++ Str.dq ++ "grid-layout" ++ Str.dq
        ++ " data-columns=" ++ Str.dq ++ Str.of_int (columns l) ++ Str.dq
        ++ ">" ++ Str.nl
        ++ String.concat ""
             (map (fun w => html_widget_row w ++ Str.nl) (widgets l))
        ++ "</div>").
Proof.
  unfold export_layout.
  change (String.eqb "html" "json") with false.
  change (String.eqb "html" "css") with false.
  change (String.eqb "html" "html") with true.
  cbv iota. f_equal.
  rewrite (fold_left_append (fun w => [html_widget_row w])).
  rewrite join_snoc, unlines_app, unlines_rows.
  generalize (String.concat ""
                (map (fun w => html_widget_row w ++ Str.nl) (widgets l))).
  generalize (Str.of_int (columns l)), (name l).
  intros cols nm rows. str_norm.
Qed.

(** X16: a widget added at the end of a layout adds its block at the
    end of the CSS export, after an empty line, and leaves the rest of
    the sheet as it was. *)
Theorem export_css_append (l : WidgetLayout) (w : Widget) (sheet : string) :
  export_layout json_dumps l "css" = Ok sheet ->
  export_layout json_dumps (set_widgets l (widgets l +++ [w])) "css"
  = Ok (sheet ++ Str.nl ++ CssSpec.widget_block w).
Proof.
  rewrite !css_lines_shape. intros H. injection H as <-. f_equal.
  cbn [set_widgets name widgets columns row_height].
  rewrite flat_map_app, app_assoc, (unlines_app (_ +++ _)).
  f_equal. apply (concat_blocks [w]).
Qed.

End ExportMore.

Lemma export_css_append_witness :
  export_layout (fun _ => "{}")
    (set_widgets empty_dashboard (widgets empty_dashboard +++ [button_widget]))
    "css"
  = Ok (CssSpec.sheet empty_dashboard ++ Str.nl
        ++ CssSpec.widget_block button_widget).
Proof.
  apply (export_css_append (fun _ => "{}") empty_dashboard button_widget).
  reflexivity.
Defined.




(** ** Database *)

Lemma max_id_ge {R : Type} (id : R -> Z) (rows : list R) :
  0 <= Sql.max_id id rows /\ Forall (fun r => id r <= Sql.max_id id rows) rows.
Proof.
  induction rows as [|r rows [IH0 IH]]; simpl; [split; [lia | constructor]|].
  split; [lia|]. constructor; [lia|].
  eapply Forall_impl; [|exact IH]. simpl. intros; lia.
Qed.

(** The next row id is larger than every row id of the table and than
    the largest the table ever had. *)
Lemma next_id_fresh {R : Type} (id : R -> Z) (rows : list R) (seq : Z) :
  seq < Sql.next_id id rows seq
  /\ Forall (fun r => id r < Sql.next_id id rows seq) rows.
Proof.
  unfold Sql.next_id. destruct (max_id_ge id rows) as [_ H].
  split; [lia|]. eapply Forall_impl; [|exact H]. simpl. intros; lia.
Qed.

Section StoreFacts.

Variable json_dumps : value -> string.
Variable json_loads : string -> result value.

(** What a successful first save does. *)
Lemma save_widget_new_inv (w w' : Widget) (lid : option Z) (db db' : Db) :
  db_id w = None ->
  save_widget json_dumps w lid (Some Connection) db = (inl w', db') ->
  let id := Sql.next_id r_id (widget_rows db) (widget_seq db) in
  w' = set_db_id w (Some id)
  /\ stored db (widget_id w) = false
  /\ id <= 2 ^ 63 - 1
  /\ db' = {| widget_rows := widget_rows db +++ [row_of json_dumps w lid id];
              widget_seq := id;
              layout_rows := layout_rows db;
              layout_seq := layout_seq db |}.
Proof.
  intros Hnew. unfold save_widget, db_bind, db_ret, Sql.insert_widget, stored.
  rewrite Hnew.
  destruct (negb _); [discriminate|].
  destruct (2 ^ 63 - 1 <? _) eqn:Hfull; [discriminate|].
  destruct (existsb _ _); [discriminate|].
  intros H. injection H as <- <-.
  apply Z.ltb_ge in Hfull. repeat split; assumption.
Qed.

(** X18: the first save of a widget adds one row at the end of the
    table and changes nothing else; the storage handle it assigns is
    larger than every row id the table has or ever had, so a handle is
    never used again. *)
Theorem save_widget_new (w w' : Widget) (lid : option Z) (db db' : Db) :
  db_id w = None ->
  save_widget json_dumps w lid (Some Connection) db = (inl w', db') ->
  exists id,
    w' = set_db_id w (Some id)
    /\ widget_seq db < id
    /\ Forall (fun r => r_id r < id) (widget_rows db)
    /\ widget_rows db' = widget_rows db +++ [row_of json_dumps w lid id]
    /\ widget_seq db' = id
    /\ layout_rows db' = layout_rows db
    /\ layout_seq db' = layout_seq db.
Proof.
  intros Hnew Hsave.
  destruct (save_widget_new_inv w w' lid db db' Hnew Hsave)
    as (Hw & _ & _ & ->).
  destruct (next_id_fresh r_id (widget_rows db) (widget_seq db)) as [Hs Hf].
  eexists. repeat split; eassumption.
Qed.

Lemma find_absent {R : Type} (p : R -> bool) (rows : list R) :
  existsb p rows = false -> find p rows = None.
Proof.
  induction rows as [|r rows IH]; simpl; [reflexivity|].
  destruct (p r); [discriminate | exact IH].
Qed.

Lemma find_app_absent {R : Type} (p : R -> bool) (rows more : list R) :
  existsb p rows = false -> find p (rows +++ more) = find p more.
Proof.
  induction rows as [|r rows IH]; simpl; [reflexivity|].
  destruct (p r); [discriminate | exact IH].
Qed.

Lemma bool_of_int_of_bool (b : bool) : bool_of_int (int_of_bool b) = b.
Proof. now destruct b. Qed.

(** X19: a widget loaded after its first save has the type, label,
    position and visibility that were saved and the handle the save
    assigned, and also the config when the stored text parses back to
    it; its creation time is the time of the load, not the one of the
    saved widget. *)
Theorem load_after_save (env : Env) (w w' : Widget) (lid : option Z)
    (db db' : Db) :
  db_id w = None ->
  json_loads (json_dumps (VDict (config w))) = Ok (VDict (config w)) ->
  save_widget json_dumps w lid (Some Connection) db = (inl w', db') ->
  load_widget json_loads env (widget_id w) db'
  = (inl (Some {| widget_type := widget_type w; config := config w;
                  position := position w; widget_id := widget_id w;
                  label := label w; visible := visible w;
                  created_at := utcnow env; db_id := db_id w' |}), db').
Proof.
  intros Hnew Hjson Hsave.
  destruct (save_widget_new_inv w w' lid db db' Hnew Hsave)
    as (-> & Hfree & _ & ->).
  unfold load_widget, db_bind, db_ret, Sql.select_widget. cbn [widget_rows].
  rewrite (find_app_absent _ _ _ Hfree). cbn [find row_of r_widget_id].
  rewrite String.eqb_refl.
  unfold _row_to_widget. cbn [r_config row_of]. rewrite Hjson.
  cbn [bind as_dict row_of r_widget_id r_widget_type r_label r_pos_x r_pos_y
       r_pos_width r_pos_height r_visible r_id set_db_id db_id].
  rewrite bool_of_int_of_bool. now destruct w as [? ? [] ? ? ? ? ?].
Qed.

(** X20: a first save of a widget whose identifier is already stored
    raises and stores nothing.  So the copy of a saved widget that comes
    back from [deserialize_widget (serialize_widget w)], which has no
    storage handle, cannot be saved. *)
Theorem save_copy_raises (env : Env) (w w' : Widget) (lid : option Z)
    (db : Db) :
  stored db (widget_id w) = true ->
  deserialize_widget json_loads env (VDict (serialize_widget w)) = Ok w' ->
  exists e, save_widget json_dumps w' lid (Some Connection) db = (inr e, db).
Proof.
  intros Hstored Hcopy. rewrite deserialize_serialize in Hcopy.
  injection Hcopy as <-.
  unfold save_widget, db_bind, db_ret, Sql.insert_widget, stored in *.
  cbn [db_id widget_id].
  destruct (negb _); [eexists; reflexivity|].
  destruct (2 ^ 63 - 1 <? _); [eexists; reflexivity|].
  rewrite Hstored. eexists; reflexivity.
Qed.

End StoreFacts.

Lemma save_widget_new_witness :
  exists id,
    set_db_id button_widget (Some 1) = set_db_id button_widget (Some id)
    /\ widget_seq empty_db < id.
Proof.
  destruct (save_widget_new dumps_empty_object button_widget
              (set_db_id button_widget (Some 1)) None empty_db
              {| widget_rows := [row_of dumps_empty_object button_widget None 1];
                 widget_seq := 1; layout_rows := []; layout_seq := 0 |}
              eq_refl eq_refl) as (id & H1 & H2 & _).
  exists id. split; assumption.
Defined.

Lemma load_after_save_witness :
  load_widget loads_empty_object env0 (widget_id plain_widget)
    {| widget_rows := [row_of dumps_empty_object plain_widget (Some 3) 1];
       widget_seq := 1; layout_rows := []; layout_seq := 0 |}
  = (inl (Some {| widget_type := "card"; config := [];
                  position := {| x := 0; y := 2; width := 6; height := 3 |};
                  widget_id := "0a1b2c3d-4e5f-4a6b-8c7d-9e0f1a2b3c4d";
                  label := "Summary"; visible := false;
                  created_at := utcnow env0; db_id := Some 1 |}),
     {| widget_rows := [row_of dumps_empty_object plain_widget (Some 3) 1];
        widget_seq := 1; layout_rows := []; layout_seq := 0 |}).
Proof.
  apply (load_after_save dumps_empty_object loads_empty_object env0
           plain_widget (set_db_id plain_widget (Some 1)) (Some 3) empty_db);
    reflexivity.
Defined.

Lemma save_copy_raises_witness :
  exists e,
    save_widget dumps_empty_object (set_db_id plain_widget None) None
      (Some Connection)
      {| widget_rows := [row_of dumps_empty_object plain_widget None 1];
         widget_seq := 1; layout_rows := []; layout_seq := 0 |}
    = (inr e,
       {| widget_rows := [row_of dumps_empty_object plain_widget None 1];
          widget_seq := 1; layout_rows := []; layout_seq := 0 |}).
Proof.
  apply (save_copy_raises dumps_empty_object no_json env0
           (set_db_id plain_widget (Some 1))); reflexivity.
Defined.

(** An update by row id changes no row when every row id is smaller. *)
Lemma map_no_hit (f : WidgetRow -> WidgetRow) (id : Z) (rows : list WidgetRow) :
  Forall (fun r => r_id r < id) rows ->
  map (fun r => if r_id r =? id then f r else r) rows = rows.
Proof.
  induction 1 as [|r rows Hr _ IH]; [reflexivity|].
  simpl. rewrite IH.
  replace (r_id r =? id) with false by (symmetry; apply Z.eqb_neq; lia).
  reflexivity.
Qed.

Section StoreMore.

Variable json_dumps : value -> string.
Variable json_loads : string -> result value.

(** A save of a widget that has a storage handle leaves the row ids,
    the identifiers and the attachments of all rows as they are. *)
Lemma save_widget_update_keeps (w : Widget) (lid : option Z) (id : Z)
    (db : Db) :
  db_id w = Some id ->
  let out := save_widget json_dumps w lid (Some Connection) db in
  attachments (snd out) = attachments db
  /\ map r_widget_id (widget_rows (snd out)) = map r_widget_id (widget_rows db)
  /\ widget_seq (snd out) = widget_seq db
  /\ layout_rows (snd out) = layout_rows db
  /\ layout_seq (snd out) = layout_seq db
  /\ (forall w', fst out = inl w' -> w' = w).
Proof.
  intros Hid. unfold save_widget, db_bind, db_ret, Sql.update_widget, attachments.
  rewrite Hid. destruct (negb _); cbn [fst snd].
  - repeat split. discriminate.
  - cbn [widget_rows widget_seq layout_rows layout_seq]. rewrite !map_map.
    repeat split.
    + apply map_ext. intros r. now destruct (r_id r =? id).
    + apply map_ext. intros r. now destruct (r_id r =? id).
    + intros w' H. now injection H.
Qed.

Lemma save_widgets_keeps (ws : list Widget) (lid : option Z) (db : Db) :
  Forall (fun w => db_id w <> None) ws ->
  attachments (snd (save_widgets json_dumps ws lid db)) = attachments db
  /\ layout_rows (snd (save_widgets json_dumps ws lid db)) = layout_rows db.
Proof.
  revert db. induction ws as [|w ws IH]; intros db Hall; [split; reflexivity|].
  inversion Hall as [|? ? Hw Hws]; subst.
  destruct (db_id w) as [id|] eqn:Hid; [|contradiction].
  destruct (save_widget_update_keeps w lid id db Hid)
    as (Ha & _ & _ & Hl & _ & _).
  assert (E : save_widgets json_dumps (w :: ws) lid db
              = match save_widget json_dumps w lid (Some Connection) db with
                | (inl w', db1) =>
                    match save_widgets json_dumps ws lid db1 with
                    | (inl ws', db2) => (inl (w' :: ws'), db2)
                    | (inr e, db2) => (inr e, db2)
                    end
                | (inr e, db1) => (inr e, db1)
                end) by reflexivity.
  rewrite E. clear E.
  destruct (save_widget json_dumps w lid (Some Connection) db) as [[w'|e] db1];
    cbn [snd] in *; [|split; assumption].
  specialize (IH db1 Hws).
  destruct (save_widgets json_dumps ws lid db1) as [[ws'|e] db2];
    cbn [snd] in *; destruct IH as [IHa IHl]; split; congruence.
Qed.

(** X21: [save_layout] does not attach widgets that were saved before:
    when every widget of the layout has a storage handle, each row of
    the widgets table keeps the layout it had (or none), whether the
    call returns or raises. *)
Theorem save_layout_keeps_attachments (l : WidgetLayout) (db : Db) :
  Forall (fun w => db_id w <> None) (widgets l) ->
  attachments (snd (save_layout json_dumps l db)) = attachments db.
Proof.
  intros Hall. unfold save_layout. unfold db_bind at 1.
  assert (Hfirst :
    forall m : DbM (option Z),
      (forall db1 r, m db = (r, db1) -> attachments db1 = attachments db) ->
      attachments
        (snd (match m db with
              | (inl a, db') =>
                  (ws <-- save_widgets json_dumps (widgets l) a ;;
                   db_ret {| name := name l; widgets := ws;
                             columns := columns l;
                             row_height := row_height l; layout_id := a;
                             layout_created_at := layout_created_at l |}) db'
              | (inr e, db') => (inr e, db')
              end)) = attachments db).
  { intros m Hm. destruct (m db) as [[a|e] db1] eqn:E;
      pose proof (Hm _ _ eq_refl) as H1; [|exact H1].
    unfold db_bind, db_ret.
    destruct (save_widgets_keeps (widgets l) a db1 Hall) as [Ha _].
    destruct (save_widgets json_dumps (widgets l) a db1) as [[ws|e] db2];
      cbn [snd] in *; congruence. }
  apply Hfirst. intros db1 r.
  destruct (layout_id l) as [id|];
    unfold db_bind, db_ret, Sql.insert_layout, Sql.update_layout;
    repeat match goal with
           | |- context [if ?c then _ else _] => destruct c
           end;
    intros H; injection H as _ <-; reflexivity.
Qed.

(** X22: a widget that is saved, deleted and saved again is not stored:
    the second save finds no row with the handle, changes nothing and
    returns as if it had saved. *)
Theorem save_after_delete (env : Env) (w w1 : Widget) (lid : option Z)
    (db db1 : Db) :
  db_id w = None ->
  save_widget json_dumps w lid (Some Connection) db = (inl w1, db1) ->
  exists db2,
    delete_widget (widget_id w) db1 = (inl true, db2)
    /\ widget_rows db2 = widget_rows db
    /\ save_widget json_dumps w1 lid (Some Connection) db2 = (inl w1, db2)
    /\ load_widget json_loads env (widget_id w) db2 = (inl None, db2).
Proof.
  intros Hnew Hsave.
  destruct (save_widget_new_inv json_dumps w w1 lid db db1 Hnew Hsave)
    as (-> & Hfree & Hmax & ->).
  destruct (next_id_fresh r_id (widget_rows db) (widget_seq db)) as [_ Hfresh].
  set (id := Sql.next_id r_id (widget_rows db) (widget_seq db)) in *.
  assert (Hkeep : filter (fun r => negb (String.eqb (r_widget_id r) (widget_id w)))
                         (widget_rows db) = widget_rows db).
  { unfold stored in Hfree. clear -Hfree.
    induction (widget_rows db) as [|r rows IH]; simpl in *; [reflexivity|].
    apply orb_false_iff in Hfree as [Hr Hrest]. rewrite Hr. simpl.
    now rewrite IH. }
  assert (Hnone : filter (fun r => String.eqb (r_widget_id r) (widget_id w))
                         (widget_rows db) = []).
  { unfold stored in Hfree. clear -Hfree.
    induction (widget_rows db) as [|r rows IH]; simpl in *; [reflexivity|].
    apply orb_false_iff in Hfree as [Hr Hrest]. rewrite Hr. now apply IH. }
  eexists. split; [|split; [|split]].
  - unfold delete_widget, db_bind, db_ret, Sql.delete_widget_rows.
    cbn [widget_rows widget_seq layout_rows layout_seq].
    rewrite !filter_app, Hnone, Hkeep. cbn [filter row_of r_widget_id].
    rewrite String.eqb_refl. cbn [negb app List.length]. rewrite app_nil_r.
    reflexivity.
  - reflexivity.
  - unfold save_widget, db_bind, db_ret, Sql.update_widget.
    cbn [set_db_id db_id position visible widget_type label config
         widget_rows widget_seq layout_rows layout_seq].
    unfold save_widget, Sql.insert_widget, db_bind, db_ret in Hsave.
    rewrite Hnew in Hsave.
    destruct (negb _) eqn:Hfit in Hsave; [discriminate|].
    apply negb_false_iff in Hfit.
    assert (Hidfit : Sql.fits_int64 id = true).
    { unfold Sql.fits_int64. apply andb_true_iff.
      pose proof (max_id_ge r_id (widget_rows db)) as [Hnonneg _].
      split; [apply Z.leb_le | apply Z.leb_le]; [|exact Hmax].
      unfold id, Sql.next_id. lia. }
    rewrite Hidfit.
    destruct (Sql.fits_int64_opt lid), (Sql.fits_int64 (x (position w))),
      (Sql.fits_int64 (y (position w))), (Sql.fits_int64 (width (position w))),
      (Sql.fits_int64 (height (position w))),
      (Sql.fits_int64 (int_of_bool (visible w)));
      try discriminate Hfit.
    cbn [negb andb]. f_equal. f_equal.
    apply map_no_hit, Hfresh.
  - unfold load_widget, db_bind, db_ret, Sql.select_widget.
    cbn [widget_rows]. now rewrite (find_absent _ _ Hfree).
Qed.

Lemma filter_hit_length (wid : string) (rows : list WidgetRow) :
  (Z.of_nat (List.length
               (filter (fun r => String.eqb (r_widget_id r) wid) rows)) >? 0)
  = existsb (fun r => String.eqb (r_widget_id r) wid) rows.
Proof.
  induction rows as [|r rows IH]; simpl; [reflexivity|].
  destruct (String.eqb (r_widget_id r) wid); simpl; [|exact IH].
  rewrite Z.gtb_ltb. apply Z.ltb_lt. lia.
Qed.

(** X23: [delete_widget] returns [True] exactly when a row with the
    identifier is stored; afterwards no row has the identifier and
    [load_widget] returns [None]; the rows with other identifiers stay,
    in their order. *)
Theorem delete_widget_spec (env : Env) (wid : string) (db : Db) :
  exists db',
    delete_widget wid db = (inl (stored db wid), db')
    /\ stored db' wid = false
    /\ load_widget json_loads env wid db' = (inl None, db')
    /\ widget_rows db'
       = filter (fun r => negb (String.eqb (r_widget_id r) wid))
                (widget_rows db)
    /\ widget_seq db' = widget_seq db
    /\ layout_rows db' = layout_rows db.
Proof.
  eexists. split; [|split; [|split; [|split; [|split]]]].
  - unfold delete_widget, db_bind, db_ret, Sql.delete_widget_rows.
    rewrite filter_hit_length. reflexivity.
  - unfold stored. cbn [widget_rows].
    induction (widget_rows db) as [|r rows IH]; simpl; [reflexivity|].
    destruct (String.eqb (r_widget_id r) wid) eqn:E; simpl; [exact IH|].
    now rewrite E.
  - unfold load_widget, db_bind, db_ret, Sql.select_widget. cbn [widget_rows].
    rewrite find_absent; [reflexivity|].
    induction (widget_rows db) as [|r rows IH]; simpl; [reflexivity|].
    destruct (String.eqb (r_widget_id r) wid) eqn:E; simpl; [exact IH|].
    now rewrite E.
  - reflexivity.
  - reflexivity.
  - reflexivity.
Qed.

End StoreMore.

Lemma save_layout_keeps_attachments_witness :
  attachments (snd (save_layout dumps_empty_object saved_dashboard
                      two_widgets_db))
  = [(1, None); (2, None)].
Proof.
  apply (save_layout_keeps_attachments dumps_empty_object saved_dashboard
           two_widgets_db).
  repeat constructor; discriminate.
Defined.

Lemma save_after_delete_witness :
  exists db2,
    delete_widget (widget_id plain_widget)
      {| widget_rows := [row_of dumps_empty_object plain_widget None 1];
         widget_seq := 1; layout_rows := []; layout_seq := 0 |}
    = (inl true, db2)
    /\ widget_rows db2 = [].
Proof.
  destruct (save_after_delete dumps_empty_object no_json env0 plain_widget
              (set_db_id plain_widget (Some 1)) None empty_db
              {| widget_rows := [row_of dumps_empty_object plain_widget None 1];
                 widget_seq := 1; layout_rows := []; layout_seq := 0 |}
              eq_refl eq_refl) as (db2 & H1 & H2 & _).
  exists db2. split; assumption.
Defined.

Section LayoutFacts.

Variable json_dumps : value -> string.
Variable json_loads : string -> result value.

Lemma find_map_hit (wid : string) (id : Z) (f : WidgetRow -> WidgetRow)
    (rows : list WidgetRow) (r0 : WidgetRow) :
  (forall r, r_widget_id (f r) = r_widget_id r) ->
  find (fun r => String.eqb (r_widget_id r) wid) rows = Some r0 ->
  r_id r0 = id ->
  find (fun r => String.eqb (r_widget_id r) wid)
       (map (fun r => if r_id r =? id then f r else r) rows)
  = Some (f r0).
Proof.
  intros Hf. induction rows as [|r rows IH]; simpl; [discriminate|].
  destruct (String.eqb (r_widget_id r) wid) eqn:E.
  - intros H Hid. injection H as ->. rewrite <- Hid, Z.eqb_refl.
    now rewrite Hf, E.
  - intros H Hid.
    assert (E' : String.eqb (r_widget_id (if r_id r =? id then f r else r)) wid
                 = false)
      by (destruct (r_id r =? id); [rewrite Hf|]; exact E).
    rewrite E'. now apply IH.
Qed.

(** X24: when the row that holds a widget's identifier is the row of
    its storage handle, a save followed by a load gives the widget back
    with every field but the creation time, which is the time of the
    load; the row keeps the layout it was attached to. *)
Theorem load_after_update (env : Env) (w w' : Widget) (lid : option Z)
    (id : Z) (r0 : WidgetRow) (db db' : Db) :
  db_id w = Some id ->
  find (fun r => String.eqb (r_widget_id r) (widget_id w)) (widget_rows db)
  = Some r0 ->
  r_id r0 = id ->
  json_loads (json_dumps (VDict (config w))) = Ok (VDict (config w)) ->
  save_widget json_dumps w lid (Some Connection) db = (inl w', db') ->
  w' = w
  /\ load_widget json_loads env (widget_id w) db'
     = (inl (Some {| widget_type := widget_type w; config := config w;
                     position := position w; widget_id := widget_id w;
                     label := label w; visible := visible w;
                     created_at := utcnow env; db_id := Some id |}), db')
  /\ fst (Sql.select_widget (widget_id w) db')
     = inl (Some (row_of json_dumps w (r_layout_id r0) id)).
Proof.
  intros Hid Hfind Hr0 Hjson.
  unfold save_widget, db_bind, db_ret, Sql.update_widget. rewrite Hid.
  destruct (negb _); [discriminate|].
  intros H. injection H as <- <-.
  assert (Hrow :
    find (fun r => String.eqb (r_widget_id r) (widget_id w))
         (widget_rows
            {| widget_rows :=
                 map (fun r =>
                        if r_id r =? id
                        then {| r_id := r_id r; r_layout_id := r_layout_id r;
                                r_widget_id := r_widget_id r;
                                r_widget_type := widget_type w;
                                r_label := label w;
                                r_config := json_dumps (VDict (config w));
                                r_pos_x := x (position w);
                                r_pos_y := y (position w);
                                r_pos_width := width (position w);
                                r_pos_height := height (position w);
                                r_visible := int_of_bool (visible w) |}
                        else r) (widget_rows db);
               widget_seq := widget_seq db;
               layout_rows := layout_rows db;
               layout_seq := layout_seq db |})
    = Some (row_of json_dumps w (r_layout_id r0) id)).
  { cbn [widget_rows].
    rewrite (find_map_hit (widget_id w) id
               (fun r => {| r_id := r_id r; r_layout_id := r_layout_id r;
                            r_widget_id := r_widget_id r;
                            r_widget_type := widget_type w;
                            r_label := label w;
                            r_config := json_dumps (VDict (config w));
                            r_pos_x := x (position w);
                            r_pos_y := y (position w);
                            r_pos_width := width (position w);
                            r_pos_height := height (position w);
                            r_visible := int_of_bool (visible w) |})
               (widget_rows db) r0 (fun r => eq_refl) Hfind Hr0).
    unfold row_of. rewrite Hr0. f_equal. f_equal.
    apply find_some in Hfind as [_ Hwid]. now apply String.eqb_eq in Hwid. }
  split; [reflexivity|]. split.
  - unfold load_widget, db_bind, db_ret, Sql.select_widget. rewrite Hrow.
    unfold _row_to_widget. cbn [r_config row_of]. rewrite Hjson.
    cbn [bind as_dict row_of r_widget_id r_widget_type r_label r_pos_x r_pos_y
         r_pos_width r_pos_height r_visible r_id].
    rewrite bool_of_int_of_bool. now destruct w as [? ? [] ? ? ? ? ?].
  - unfold Sql.select_widget. cbn [fst]. now rewrite Hrow.
Qed.






(** X27: a first save of a layout whose name is already stored raises
    and stores nothing: no widget of the layout is saved. *)
Theorem save_layout_duplicate_name (l : WidgetLayout) (db : Db) :
  layout_id l = None ->
  layout_stored db (name l) = true ->
  exists e, save_layout json_dumps l db = (inr e, db).
Proof.
  intros Hnew Hname.
  unfold save_layout, db_bind, db_ret, Sql.insert_layout, layout_stored in *.
  rewrite Hnew.
  destruct (negb _); [eexists; reflexivity|].
  destruct (2 ^ 63 - 1 <? _); [eexists; reflexivity|].
  rewrite Hname. eexists; reflexivity.
Qed.

End LayoutFacts.

Lemma load_after_update_witness :
  load_widget loads_empty_object env0 (widget_id plain_widget)
    {| widget_rows := [row_of dumps_empty_object plain_widget (Some 3) 1];
       widget_seq := 1; layout_rows := []; layout_seq := 0 |}
  = (inl (Some {| widget_type := "card"; config := [];
                  position := {| x := 0; y := 2; width := 6; height := 3 |};
                  widget_id := "0a1b2c3d-4e5f-4a6b-8c7d-9e0f1a2b3c4d";
                  label := "Summary"; visible := false;
                  created_at := utcnow env0; db_id := Some 1 |}),
     {| widget_rows := [row_of dumps_empty_object plain_widget (Some 3) 1];
        widget_seq := 1; layout_rows := []; layout_seq := 0 |}).
Proof.
  apply (proj1 (proj2
    (load_after_update dumps_empty_object loads_empty_object env0
       (set_db_id plain_widget (Some 1)) (set_db_id plain_widget (Some 1))
       None 1
       {| r_id := 1; r_layout_id := Some 3;
          r_widget_id := widget_id plain_widget;
          r_widget_type := "button"; r_label := "Old";
          r_config := "{}"; r_pos_x := 1; r_pos_y := 1;
          r_pos_width := 1; r_pos_height := 1; r_visible := 1 |}
       {| widget_rows :=
            [{| r_id := 1; r_layout_id := Some 3;
                r_widget_id := widget_id plain_widget;
                r_widget_type := "button"; r_label := "Old";
                r_config := "{}"; r_pos_x := 1; r_pos_y := 1;
                r_pos_width := 1; r_pos_height := 1; r_visible := 1 |}];
          widget_seq := 1; layout_rows := []; layout_seq := 0 |}
       {| widget_rows := [row_of dumps_empty_object plain_widget (Some 3) 1];
          widget_seq := 1; layout_rows := []; layout_seq := 0 |}
       eq_refl eq_refl eq_refl eq_refl eq_refl))).
Defined.



Lemma save_layout_duplicate_name_witness :
  exists e,
    save_layout dumps_empty_object new_dashboard saved_new_dashboard_db
    = (inr e, saved_new_dashboard_db).
Proof.
  apply (save_layout_duplicate_name dumps_empty_object new_dashboard
           saved_new_dashboard_db); reflexivity.
Defined.
